(** * VectorizedFnCall: the function-call node of the vectorized expression tree

    A shallow embedding of [be/src/vec/exprs/vectorized_fn_call.cpp]:
    binding of the executable in [prepare], the execution protocol of
    [_do_execute], the memory estimate and the structural equality.

    Collaborators that live in other translation units (the expression base
    class, the block, the function factories, the configuration) enter as
    fields of interface records; their behaviour is never assumed beyond what
    a statement says. *)

From Stdlib Require Import ZArith NArith List String Ascii Bool Lia.
Import ListNotations.

Set Warnings "-register-all".

Local Open Scope string_scope.
Local Open Scope list_scope.

(** ** Machine integers *)

(** [uint32_t], [int] and [size_t] values with their wrap-around. *)
Definition to_uint32 (z : Z) : Z := (z mod 4294967296)%Z.

Definition to_int (z : Z) : Z :=
  let u := to_uint32 z in
  if (u <? 2147483648)%Z then u else (u - 4294967296)%Z.

Definition to_size_t (n : N) : N := (n mod 18446744073709551616)%N.

(** ** Status *)

Inductive ErrorCode : Type :=
| INTERNAL_ERROR
| OTHER_ERROR (code : Z).

Inductive Status : Type :=
| OK
| Error (code : ErrorCode) (msg : string).

(** [Status::InternalError(fmt, args...)], the message already formatted. *)
Definition InternalError (msg : string) : Status := Error INTERNAL_ERROR msg.

Definition ok (s : Status) : bool :=
  match s with OK => true | Error _ _ => false end.

(** ** Types from the generated thrift headers and the type system *)

Inductive TFunctionBinaryType : Type :=
| BUILTIN | HIVE | NATIVE | IR | RPC | JAVA_UDF | AGG_STATE.

Inductive PrimitiveType : Type :=
| TYPE_BOOLEAN | TYPE_INT | TYPE_BIGINT | TYPE_DOUBLE | TYPE_STRING
| TYPE_AGG_STATE.

Definition PrimitiveType_eqb (a b : PrimitiveType) : bool :=
  match a, b with
  | TYPE_BOOLEAN, TYPE_BOOLEAN | TYPE_INT, TYPE_INT | TYPE_BIGINT, TYPE_BIGINT
  | TYPE_DOUBLE, TYPE_DOUBLE | TYPE_STRING, TYPE_STRING
  | TYPE_AGG_STATE, TYPE_AGG_STATE => true
  | _, _ => false
  end.

(** The types the source only names: column data, expression nodes of other
    classes, aggregate functions, functions of the native registry, the
    expression context and the thrift dictionary function. *)
Class ExternalTypes : Type := {
  ColumnPtr : Type;
  OtherVExpr : Type;
  AggregateFunctionPtr : Type;
  NativeFunction : Type;
  VExprContext : Type;
  TDictFunction : Type
}.

Section Model.

Context {T : ExternalTypes}.

(** What the node reads of an [IDataType]. [get_nested_function] is the
    accessor of [DataTypeAggState], reached through [assert_cast]. *)
Record DataType : Type := {
  is_nullable : bool;
  get_primitive_type : PrimitiveType;
  get_name : string;
  get_family_name : string;
  have_maximum_size_of_value : bool;
  get_size_of_value_in_memory : N;
  get_nested_function : option AggregateFunctionPtr
}.

Record TFunctionName : Type := { function_name : string }.

(** [dict_function] is [Some] exactly when [__isset.dict_function] holds. *)
Record TFunction : Type := {
  name : TFunctionName;
  binary_type : TFunctionBinaryType;
  signature : string;
  is_udtf_function : bool;
  dict_function : option TDictFunction
}.

Record RuntimeState : Type := {
  enable_decimal256 : bool;
  be_exec_version : Z
}.

Record ColumnWithTypeAndName : Type := {
  column : option ColumnPtr;
  type : DataType;
  col_name : string
}.

Definition ColumnsWithTypeAndName : Type := list ColumnWithTypeAndName.
Definition DataTypes : Type := list DataType.
Definition ColumnNumbers : Type := list Z.

(** The bound executable, recorded as the factory call that produced it. *)
Inductive FunctionBasePtr : Type :=
| FunctionRPC_create (fn : TFunction) (argument_template : ColumnsWithTypeAndName)
    (return_type : DataType)
| FunctionFake_UDTFImpl_build (argument_template : ColumnsWithTypeAndName)
    (return_type : DataType)
| JavaFunctionCall_create (fn : TFunction) (argument_template : ColumnsWithTypeAndName)
    (return_type : DataType)
| FunctionAggState_create (argument_types : DataTypes) (return_type : DataType)
    (nested_function : option AggregateFunctionPtr)
| SimpleFunction (f : NativeFunction).

(** The members of a [VectorizedFnCall] other than its children. *)
Record FnCallFields : Type := {
  _fn : TFunction;
  _data_type : DataType;
  _expr_name : string;
  _function : option FunctionBasePtr;
  _function_name : string;
  _fn_context_index : Z;
  _prepare_finished : bool;
  _open_finished : bool;
  _getting_const_col : bool;
  is_constant : bool;
  _constant_col : option ColumnPtr
}.

(** An expression tree: call nodes, and nodes of the other classes. *)
Inductive VExpr : Type :=
| FnCall (d : FnCallFields) (_children : list VExpr)
| Other (o : OtherVExpr).

(** Modelled from the spec: the columnar block (vec/core/block.h) is not part
    of this file; it is an ordered mutable sequence of named, typed columns
    that supports appending a column and looking one up by index. *)
Definition Block : Type := list ColumnWithTypeAndName.

(** [Block::columns], as the [uint32_t] the caller stores it in. *)
Definition columns (block : Block) : Z := to_uint32 (Z.of_nat (List.length block)).

(** [Block::insert] of one column at the end. *)
Definition insert (block : Block) (c : ColumnWithTypeAndName) : Block := block ++ [c].

(** The virtual interface of [VExpr] as the other node classes implement it.
    [other_execute] takes the context, the block and the current value of the
    out-parameter, and gives back the three with the status. *)
Class OtherOps : Type := {
  other_is_literal : OtherVExpr -> bool;
  other_is_slot_ref : OtherVExpr -> bool;
  other_get_column_ptr : OtherVExpr -> ColumnPtr;
  other_data_type : OtherVExpr -> DataType;
  other_expr_name : OtherVExpr -> string;
  other_equals : OtherVExpr -> VExpr -> bool;
  other_estimate_memory : OtherVExpr -> N -> N;
  other_execute : OtherVExpr -> VExprContext -> Block -> Z ->
                  Status * (VExprContext * Block * Z)
}.

Context {ops : OtherOps}.

(** ** Structural equality *)

(** [VectorizedFnCall::equals]; on a node of another class the virtual call
    lands in that class. The loop walks both child lists, whose lengths were
    compared just before. *)
Fixpoint equals (this other : VExpr) {struct this} : bool :=
  match this with
  | Other o => other_equals o other
  | FnCall d children =>
      match other with
      | Other _ => false
      | FnCall other_d other_children =>
          if negb (String.eqb (_function_name d) (_function_name other_d)) then false
          else if negb (Nat.eqb (List.length children) (List.length other_children)) then false
          else
            (fix loop (cs ocs : list VExpr) {struct cs} : bool :=
               match cs, ocs with
               | c :: cs', oc :: ocs' =>
                   if negb (equals c oc) then false else loop cs' ocs'
               | _, _ => true
               end) children other_children
      end
  end.

(** ** Accessors of the expression base class on a tree node *)

(** A call node inherits [is_literal] and [is_slot_ref] of the base class. *)
Definition is_literal (e : VExpr) : bool :=
  match e with FnCall _ _ => false | Other o => other_is_literal o end.

Definition is_slot_ref (e : VExpr) : bool :=
  match e with FnCall _ _ => false | Other o => other_is_slot_ref o end.

Definition data_type (e : VExpr) : DataType :=
  match e with FnCall d _ => _data_type d | Other o => other_data_type o end.

(** [VectorizedFnCall::expr_name] returns [_expr_name]. *)
Definition expr_name (e : VExpr) : string :=
  match e with FnCall d _ => _expr_name d | Other o => other_expr_name o end.

(** [VLiteral::get_column_ptr] after the [dynamic_pointer_cast], which only
    a node of another class passes. *)
Definition get_column_ptr (e : VExpr) : option ColumnPtr :=
  match e with FnCall _ _ => None | Other o => Some (other_get_column_ptr o) end.

(** ** Collaborators *)

(** The configuration, the debug points, the base-class methods, the native
    registry, the bound function's [execute] and the block's checks. *)
Class Collaborators : Type := {
  enable_java_support : bool;
  debug_point_active : string -> bool;
  get_debug_param_or_default : string -> string -> string -> string;
  DataTypeUInt8 : DataType;
  VExpr_prepare : RuntimeState -> VExprContext -> list VExpr ->
                  Status * (list VExpr * VExprContext);
  get_child_names : list VExpr -> string;
  register_function_context : RuntimeState -> VExprContext -> FnCallFields ->
                              list VExpr -> VExprContext * Z;
  set_dict_function : VExprContext -> Z -> TDictFunction -> VExprContext;
  fast_execute : FnCallFields -> list VExpr -> VExprContext -> Block -> Z ->
                 bool * (VExprContext * Block * Z);
  check_constant : FnCallFields -> list VExpr -> Block -> ColumnNumbers -> Status;
  get_function : string -> ColumnsWithTypeAndName -> DataType -> bool -> Z ->
                 option NativeFunction;
  function_execute : FunctionBasePtr -> VExprContext -> Z -> Block ->
                     ColumnNumbers -> Z -> N -> bool ->
                     Status * (VExprContext * Block);
  block_rows : Block -> N;
  check_type_and_column : Block -> Status
}.

Context {env : Collaborators}.

(** ** Field updates *)

Definition set_expr_name (d : FnCallFields) (v : string) : FnCallFields :=
  {| _fn := _fn d; _data_type := _data_type d; _expr_name := v;
     _function := _function d; _function_name := _function_name d;
     _fn_context_index := _fn_context_index d;
     _prepare_finished := _prepare_finished d; _open_finished := _open_finished d;
     _getting_const_col := _getting_const_col d; is_constant := is_constant d;
     _constant_col := _constant_col d |}.

Definition set_function (d : FnCallFields) (v : option FunctionBasePtr) : FnCallFields :=
  {| _fn := _fn d; _data_type := _data_type d; _expr_name := _expr_name d;
     _function := v; _function_name := _function_name d;
     _fn_context_index := _fn_context_index d;
     _prepare_finished := _prepare_finished d; _open_finished := _open_finished d;
     _getting_const_col := _getting_const_col d; is_constant := is_constant d;
     _constant_col := _constant_col d |}.

(** The three members written after a successful binding. *)
Definition set_prepared (d : FnCallFields) (index : Z) (fname : string) : FnCallFields :=
  {| _fn := _fn d; _data_type := _data_type d; _expr_name := _expr_name d;
     _function := _function d; _function_name := fname;
     _fn_context_index := index;
     _prepare_finished := true; _open_finished := _open_finished d;
     _getting_const_col := _getting_const_col d; is_constant := is_constant d;
     _constant_col := _constant_col d |}.

(** ** prepare *)

Definition AGG_STATE_SUFFIX : string := "_state".

(** Modelled from the spec: [match_suffix] (common/utils.h) is not part of
    this file; the name carries the reserved suffix when it ends with it. *)
Definition match_suffix (name suffix : string) : bool :=
  if (String.length name <? String.length suffix)%nat then false
  else String.eqb
         (substring (String.length name - String.length suffix)
                    (String.length suffix) name)
         suffix.

(** Lines 60-71: one entry per child; a literal child brings its column. *)
Definition build_argument_template (children : list VExpr) : ColumnsWithTypeAndName :=
  map (fun child =>
         if is_literal child
         then {| column := get_column_ptr child; type := data_type child;
                 col_name := expr_name child |}
         else {| column := None; type := data_type child;
                 col_name := expr_name child |})
      children.

(** Lines 75-118: the dispatch on [_fn.binary_type]. An early [return] is
    the left summand; otherwise the node with [_function] assigned. *)
Definition bind_function (state : RuntimeState) (d : FnCallFields)
    (argument_template : ColumnsWithTypeAndName) : Status + FnCallFields :=
  match binary_type (_fn d) with
  | RPC =>
      inr (set_function d
             (Some (FunctionRPC_create (_fn d) argument_template (_data_type d))))
  | JAVA_UDF =>
      if enable_java_support then
        if is_udtf_function (_fn d) then
          inr (set_function d
                 (Some (FunctionFake_UDTFImpl_build argument_template DataTypeUInt8)))
        else
          inr (set_function d
                 (Some (JavaFunctionCall_create (_fn d) argument_template (_data_type d))))
      else
        inl (InternalError
               "Java UDF is not enabled, you can change be config enable_java_support to true and restart be.")
  | AGG_STATE =>
      let argument_types := map type argument_template in
      if match_suffix (function_name (name (_fn d))) AGG_STATE_SUFFIX then
        if is_nullable (_data_type d) then
          inl (InternalError "State function's return type must be not nullable")
        else if negb (PrimitiveType_eqb (get_primitive_type (_data_type d)) TYPE_AGG_STATE) then
          inl (InternalError
                 ("State function's return type must be agg_state but get "
                  ++ get_family_name (_data_type d)))
        else
          inr (set_function d
                 (Some (FunctionAggState_create argument_types (_data_type d)
                          (get_nested_function (_data_type d)))))
      else
        inl (InternalError
               ("Function " ++ signature (_fn d) ++ " is not endwith '_state'"))
  | _ =>
      inr (set_function d
             (option_map SimpleFunction
                (get_function (function_name (name (_fn d))) argument_template
                   (_data_type d) (enable_decimal256 state) (be_exec_version state))))
  end.

(** Modelled from the spec: the macro RETURN_IF_ERROR_OR_PREPARED and the
    flag it tests are not part of this file; re-entry when already prepared
    is a no-op success, and the flag is the prepared lifecycle flag, set at
    the end of a successful prepare. *)
Definition already_prepared (d : FnCallFields) : bool := _prepare_finished d.

(** [VectorizedFnCall::prepare]. The result carries the node, its children
    and the context as the call leaves them; an error of the base-class
    prepare is returned as it is. *)
Definition prepare (state : RuntimeState) (context : VExprContext)
    (d : FnCallFields) (children : list VExpr)
    : Status * (FnCallFields * list VExpr * VExprContext) :=
  if already_prepared d then (OK, (d, children, context))
  else
    let '(st, (children, context)) := VExpr_prepare state context children in
    match st with
    | Error c m => (Error c m, (d, children, context))
    | OK =>
        let argument_template := build_argument_template children in
        let d := set_expr_name d
                   ("VectorizedFnCall[" ++ function_name (name (_fn d))
                    ++ "](arguments=" ++ get_child_names children
                    ++ ",return=" ++ get_name (_data_type d) ++ ")") in
        match bind_function state d argument_template with
        | inl err => (err, (d, children, context))
        | inr d =>
            match _function d with
            | None =>
                (InternalError
                   ("Could not find function " ++ function_name (name (_fn d))
                    ++ ", arg " ++ get_child_names children
                    ++ " return " ++ get_name (_data_type d) ++ " "),
                 (d, children, context))
            | Some _ =>
                let '(context, index) :=
                  register_function_context state context d children in
                let d := set_prepared d index (function_name (name (_fn d))) in
                let context :=
                  match dict_function (_fn d) with
                  | Some f => set_dict_function context (_fn_context_index d) f
                  | None => context
                  end in
                (OK, (d, children, context))
            end
        end
    end.

(** ** execute *)

(** The state a call of [execute] works on: the context, the block, and a
    log of the calls made to children and to the bound function, newest
    first. The log is ghost state: nothing reads it. *)
Inductive Call : Type :=
| ChildExecute (child : VExpr)
| FunctionExecute (f : FunctionBasePtr) (args : ColumnNumbers) (result : Z).

Record ExecState : Type := {
  st_context : VExprContext;
  st_block : Block;
  st_calls : list Call
}.

(** Modelled from the spec: [is_const_and_have_executed] belongs to the
    expression base class; it holds when this node was proven constant and
    already evaluated during open, that is, when its constant column is
    materialized. *)
Definition is_const_and_have_executed (d : FnCallFields) : bool :=
  is_constant d && match _constant_col d with Some _ => true | None => false end.

(** Modelled from the spec: [get_result_from_const] belongs to the expression
    base class; it returns the previously materialized constant column, here
    as a column of the block under the given name, whose index it reports.
    Without a materialized column there is nothing to return. *)
Definition get_result_from_const (d : FnCallFields) (block : Block)
    (expr_name : string) : option (Status * Block * Z) :=
  match _constant_col d with
  | None => None
  | Some c =>
      Some (OK,
            insert block {| column := Some c; type := _data_type d;
                            col_name := expr_name |},
            to_int (columns block))
  end.

(** [boost::split] with [is_any_of] of one separator, no token compression. *)
Fixpoint split (sep : ascii) (s : string) : list string :=
  match s with
  | EmptyString => [EmptyString]
  | String c rest =>
      if Ascii.eqb c sep then EmptyString :: split sep rest
      else match split sep rest with
           | h :: t => String c h :: t
           | [] => [String c EmptyString]
           end
  end.

(** What the debug point VectorizedFnCall.must_in_slow_path decides. *)
Inductive DebugCheck : Type :=
| Proceed
| Forced (s : Status)
| NoChild.

(** Lines 168-185. [get_child(0)] of a node without children has no defined
    behaviour, which [NoChild] records. *)
Definition must_in_slow_path (children : list VExpr) : DebugCheck :=
  if debug_point_active "VectorizedFnCall.must_in_slow_path" then
    match children with
    | [] => NoChild
    | child0 :: _ =>
        if is_slot_ref child0 then
          let debug_col_name :=
            get_debug_param_or_default "VectorizedFnCall.must_in_slow_path"
              "column_name" "" in
          let column_names := split ","%char debug_col_name in
          let column_name := expr_name child0 in
          if existsb (String.eqb column_name) column_names then Proceed
          else Forced (Error INTERNAL_ERROR
                         ("column " ++ column_name
                          ++ " should in slow path while VectorizedFnCall::execute."))
        else Proceed
    end
  else Proceed.

(** [std::vector::resize]: new slots are value-initialized. *)
Definition resize (n : nat) (args : ColumnNumbers) : ColumnNumbers :=
  firstn n args ++ repeat 0%Z (n - List.length args).

(** [args[i] = v] for [i] in range. *)
Fixpoint assign (i : nat) (v : Z) (args : ColumnNumbers) : ColumnNumbers :=
  match args, i with
  | [], _ => []
  | _ :: t, O => v :: t
  | h :: t, S i' => h :: assign i' v t
  end.

Definition log_call (c : Call) (s : ExecState) : ExecState :=
  {| st_context := st_context s; st_block := st_block s;
     st_calls := c :: st_calls s |}.

Section DoExecute.

(** The virtual [execute] of a child. [None] is a call without defined
    behaviour. *)
Variable child_execute : VExpr -> ExecState -> Z -> option (Status * ExecState * Z).

(** Lines 189-193, from child [i] on. *)
Fixpoint execute_children (children : list VExpr) (i : nat) (s : ExecState)
    (args : ColumnNumbers) {struct children}
    : option (Status * ExecState * ColumnNumbers) :=
  match children with
  | [] => Some (OK, s, args)
  | child :: rest =>
      let column_id := (-1)%Z in
      match child_execute child (log_call (ChildExecute child) s) column_id with
      | None => None
      | Some (Error c m, s', _) => Some (Error c m, s', args)
      | Some (OK, s', column_id) =>
          execute_children rest (S i) s' (assign i (to_uint32 column_id) args)
      end
  end.

(** [VectorizedFnCall::_do_execute]. The out-parameter [result_column_id] and
    the buffer [args] are passed in and handed back. The debug point
    VectorizedFnCall.wait_before_execute only sleeps and the DCHECK of line
    186 is compiled out of a release build; neither changes the state. *)
Definition _do_execute_with (d : FnCallFields) (children : list VExpr)
    (s : ExecState) (result_column_id : Z) (args : ColumnNumbers)
    : option (Status * ExecState * Z * ColumnNumbers) :=
  if is_const_and_have_executed d then
    match get_result_from_const d (st_block s) (_expr_name d) with
    | None => None
    | Some (st, block, id) =>
        Some (st,
              {| st_context := st_context s; st_block := block;
                 st_calls := st_calls s |},
              id, args)
    end
  else
    let '(fast, (context1, block1, id1)) :=
      fast_execute d children (st_context s) (st_block s) result_column_id in
    let s1 := {| st_context := context1; st_block := block1;
                 st_calls := st_calls s |} in
    if fast then Some (OK, s1, id1, args)
    else
      match must_in_slow_path children with
      | NoChild => None
      | Forced err => Some (err, s1, id1, args)
      | Proceed =>
          let args := resize (List.length children) args in
          match execute_children children 0 s1 args with
          | None => None
          | Some (Error c m, s2, args) => Some (Error c m, s2, id1, args)
          | Some (OK, s2, args) =>
              match check_constant d children (st_block s2) args with
              | Error c m => Some (Error c m, s2, id1, args)
              | OK =>
                  let num_columns_without_result := columns (st_block s2) in
                  let block3 :=
                    insert (st_block s2)
                      {| column := None; type := _data_type d;
                         col_name := _expr_name d |} in
                  match _function d with
                  | None => None
                  | Some f =>
                      let '(st, (context4, block4)) :=
                        function_execute f (st_context s2) (_fn_context_index d)
                          block3 args num_columns_without_result
                          (block_rows block3) false in
                      let s4 :=
                        {| st_context := context4; st_block := block4;
                           st_calls := FunctionExecute f args num_columns_without_result
                                       :: st_calls s2 |} in
                      match st with
                      | Error c m => Some (Error c m, s4, id1, args)
                      | OK =>
                          let id := to_int num_columns_without_result in
                          match check_type_and_column block4 with
                          | Error c m => Some (Error c m, s4, id, args)
                          | OK => Some (OK, s4, id, args)
                          end
                      end
                  end
              end
          end
      end.

End DoExecute.

(** The virtual [execute] on a tree: [VectorizedFnCall::execute] starts
    [_do_execute] on a fresh argument buffer and drops it. *)
Fixpoint execute (e : VExpr) (s : ExecState) (result_column_id : Z) {struct e}
    : option (Status * ExecState * Z) :=
  match e with
  | Other o =>
      let '(st, (context, block, id)) :=
        other_execute o (st_context s) (st_block s) result_column_id in
      Some (st,
            {| st_context := context; st_block := block; st_calls := st_calls s |},
            id)
  | FnCall d children =>
      match _do_execute_with execute d children s result_column_id [] with
      | None => None
      | Some (st, s', id, _) => Some (st, s', id)
      end
  end.

Definition _do_execute := _do_execute_with execute.

(** [VectorizedFnCall::execute_runtime_filter]: the caller's buffer. *)
Definition execute_runtime_filter (d : FnCallFields) (children : list VExpr)
    (s : ExecState) (result_column_id : Z) (args : ColumnNumbers)
    : option (Status * ExecState * Z * ColumnNumbers) :=
  _do_execute d children s result_column_id args.

(** ** estimate_memory *)

(** [VectorizedFnCall::estimate_memory], in [size_t] arithmetic; a child of
    another class answers through its own override. *)
Fixpoint estimate_memory (e : VExpr) (rows : N) {struct e} : N :=
  match e with
  | Other o => to_size_t (other_estimate_memory o rows)
  | FnCall d children =>
      if is_const_and_have_executed d then 0%N
      else
        let estimate_size :=
          fold_left (fun acc child => to_size_t (acc + estimate_memory child rows))
                    children 0%N in
        if have_maximum_size_of_value (_data_type d) then
          to_size_t (estimate_size
                     + to_size_t (rows * get_size_of_value_in_memory (_data_type d)))
        else
          to_size_t (estimate_size + to_size_t (rows * 512))
  end.

End Model.

Arguments FnCall {T} d _children.
Arguments Other {T} o.

(** ** Predicates on trees *)

(** Every node of another class inside [e] satisfies [P]. *)
Fixpoint Forall_other {T : ExternalTypes} (P : OtherVExpr -> Prop) (e : VExpr) : Prop :=
  match e with
  | Other o => P o
  | FnCall _ children =>
      (fix all (l : list VExpr) : Prop :=
         match l with
         | [] => True
         | c :: t => Forall_other P c /\ all t
         end) children
  end.

(** The sum of the children's estimates, without wrap-around. *)
Definition children_estimate {T : ExternalTypes} {ops : OtherOps}
    (children : list VExpr) (rows : N) : N :=
  fold_right (fun child acc => (estimate_memory child rows + acc)%N) 0%N children.

(** The per-row contribution of a call node: the maximum size of a value of
    the return type when it has one, 512 otherwise. *)
Definition per_row_size {T : ExternalTypes} (d : FnCallFields) : N :=
  if have_maximum_size_of_value (_data_type d)
  then get_size_of_value_in_memory (_data_type d)
  else 512%N.

(** The return type handed to the factory that built the executable; the
    registry keeps its own. *)
Definition factory_return_type {T : ExternalTypes} (f : FunctionBasePtr) : option DataType :=
  match f with
  | FunctionRPC_create _ _ t => Some t
  | FunctionFake_UDTFImpl_build _ t => Some t
  | JavaFunctionCall_create _ _ t => Some t
  | FunctionAggState_create _ t _ => Some t
  | SimpleFunction _ => None
  end.

(** The node as a call of prepare leaves it, and the status it returns. *)
Definition node_after {T : ExternalTypes}
    (r : Status * (FnCallFields * list VExpr * VExprContext)) : FnCallFields :=
  fst (fst (snd r)).

(** The state in which the fast path leaves the context and the block. *)
Definition after_fast_execute {T : ExternalTypes} {env : Collaborators}
    (d : FnCallFields) (children : list VExpr) (s : ExecState) (id : Z) : ExecState :=
  let r := snd (fast_execute d children (st_context s) (st_block s) id) in
  {| st_context := fst (fst r); st_block := snd (fst r); st_calls := st_calls s |}.

(** [sub] occurs in [s]. *)
Fixpoint contains (sub s : string) : bool :=
  if String.prefix sub s then true
  else match s with
       | EmptyString => false
       | String _ rest => contains sub rest
       end.

(** ** The rest of the node: open, the index bridge and the debug output *)

Inductive FunctionStateScope : Type :=
| FRAGMENT_LOCAL
| THREAD_LOCAL.

(** The base-class methods and virtual calls that [open],
    [can_push_down_to_index] and [debug_string] reach. [get_const_col] may
    rewrite the members of the node it is called on; the other two only work
    on what they are handed. *)
Class LifecycleOps {T : ExternalTypes} : Type := {
  other_open : OtherVExpr -> RuntimeState -> VExprContext -> FunctionStateScope ->
               Status * (OtherVExpr * VExprContext);
  init_function_context : RuntimeState -> VExprContext -> FunctionStateScope ->
                          FnCallFields -> option FunctionBasePtr ->
                          Status * VExprContext;
  get_const_col : FnCallFields -> list VExpr -> VExprContext ->
                  Status * (FnCallFields * VExprContext);
  function_can_push_down_to_index : FunctionBasePtr -> bool;
  other_debug_string : OtherVExpr -> string
}.

Section Lifecycle.

Context {T : ExternalTypes} {ops : OtherOps} {life : LifecycleOps}.

Definition set_open_finished (d : FnCallFields) : FnCallFields :=
  {| _fn := _fn d; _data_type := _data_type d; _expr_name := _expr_name d;
     _function := _function d; _function_name := _function_name d;
     _fn_context_index := _fn_context_index d;
     _prepare_finished := _prepare_finished d; _open_finished := true;
     _getting_const_col := _getting_const_col d; is_constant := is_constant d;
     _constant_col := _constant_col d |}.

Section Open.

Variable state : RuntimeState.
Variable scope : FunctionStateScope.

Section OpenChildren.

(** The virtual [open] of a child, which may change the child. *)
Variable child_open : VExpr -> VExprContext -> Status * (VExpr * VExprContext).

(** Lines 138-140: the children in order, up to the first error. *)
Fixpoint open_children (children : list VExpr) (context : VExprContext)
    {struct children} : Status * (list VExpr * VExprContext) :=
  match children with
  | [] => (OK, ([], context))
  | i :: rest =>
      match child_open i context with
      | (Error c m, (i', context')) => (Error c m, (i' :: rest, context'))
      | (OK, (i', context')) =>
          let '(st, (rest', context'')) := open_children rest context' in
          (st, (i' :: rest', context''))
      end
  end.

End OpenChildren.

(** [VectorizedFnCall::open] on a tree; the result carries the tree and the
    context as the call leaves them. The DCHECK of line 137 is compiled out
    of a release build. *)
Fixpoint open (e : VExpr) (context : VExprContext) {struct e}
    : Status * (VExpr * VExprContext) :=
  match e with
  | Other o =>
      let '(st, (o', context')) := other_open o state context scope in
      (st, (Other o', context'))
  | FnCall d children =>
      match open_children open children context with
      | (Error c m, (children', context1)) => (Error c m, (FnCall d children', context1))
      | (OK, (children', context1)) =>
          match init_function_context state context1 scope d (_function d) with
          | (Error c m, context2) => (Error c m, (FnCall d children', context2))
          | (OK, context2) =>
              match scope with
              | FRAGMENT_LOCAL =>
                  match get_const_col d children' context2 with
                  | (Error c m, (d', context3)) =>
                      (Error c m, (FnCall d' children', context3))
                  | (OK, (d', context3)) =>
                      (OK, (FnCall (set_open_finished d') children', context3))
                  end
              | THREAD_LOCAL =>
                  (OK, (FnCall (set_open_finished d) children', context2))
              end
          end
      end
  end.

End Open.

(** [VectorizedFnCall::can_push_down_to_index]; [None] is the call through a
    null [_function]. *)
Definition can_push_down_to_index (d : FnCallFields) : option bool :=
  match _function d with
  | None => None
  | Some f => Some (function_can_push_down_to_index f)
  end.

(** ** debug_string *)

Definition newline : string := String (ascii_of_nat 10) EmptyString.

Section DebugString.

Variable child_debug_string : VExpr -> string.

(** Lines 257-264: the loop, with the stream and the flag [first]. *)
Fixpoint debug_string_children (children : list VExpr) (first : bool) (out : string)
    {struct children} : string :=
  match children with
  | [] => out
  | input_expr :: rest =>
      let out := if first then out else (out ++ ",")%string in
      debug_string_children rest false
        (out ++ newline ++ child_debug_string input_expr)%string
  end.

End DebugString.

(** [VectorizedFnCall::debug_string() const]. *)
Fixpoint debug_string (e : VExpr) {struct e} : string :=
  match e with
  | Other o => other_debug_string o
  | FnCall d children =>
      let out := ("VectorizedFn[" ++ _expr_name d ++ "]{")%string in
      let out := debug_string_children debug_string children true out in
      (out ++ "}")%string
  end.

(** Lines 272-274 from index [i] on. *)
Fixpoint debug_string_from (agg_fns : list (FnCallFields * list VExpr)) (i : nat)
    (out : string) {struct agg_fns} : string :=
  match agg_fns with
  | [] => out
  | fn :: rest =>
      debug_string_from rest (S i)
        (out ++ (if Nat.eqb i 0 then "" else " ")
             ++ debug_string (FnCall (fst fn) (snd fn)))%string
  end.

(** The static [VectorizedFnCall::debug_string] of a vector of call nodes. *)
Definition debug_string_of (agg_fns : list (FnCallFields * list VExpr)) : string :=
  (debug_string_from agg_fns 0 "[" ++ "]")%string.

End Lifecycle.

(** ** More predicates on trees *)

(** The function names of a tree of call nodes, with its shape. *)
Inductive Skeleton : Type :=
| SkCall (fname : string) (children : list Skeleton)
| SkOther.

Fixpoint skeleton {T : ExternalTypes} (e : VExpr) : Skeleton :=
  match e with
  | Other _ => SkOther
  | FnCall d children => SkCall (_function_name d) (map skeleton children)
  end.

(** The bytes a row costs in a tree of call nodes: nothing below a
    materialized constant. *)
Fixpoint row_size {T : ExternalTypes} (e : VExpr) : N :=
  match e with
  | Other _ => 0%N
  | FnCall d children =>
      if is_const_and_have_executed d then 0%N
      else (fold_right (fun child acc => row_size child + acc) 0 children
            + per_row_size d)%N
  end.

(** Every call node of the tree has been opened. *)
Fixpoint all_opened {T : ExternalTypes} (e : VExpr) : Prop :=
  match e with
  | Other _ => True
  | FnCall d children =>
      _open_finished d = true
      /\ (fix all (l : list VExpr) : Prop :=
            match l with
            | [] => True
            | c :: t => all_opened c /\ all t
            end) children
  end.

(** The argument buffer handed back by [_do_execute], dropped. *)
Definition drop_args {T : ExternalTypes}
    (r : option (Status * ExecState * Z * ColumnNumbers))
    : option (Status * ExecState * Z) :=
  match r with
  | None => None
  | Some (st, s, id, _) => Some (st, s, id)
  end.

(** Two runs of the loop agree when the buffers agree below [i]. *)
Definition same_outcome {A : Type} (r1 r2 : option (Status * A * ColumnNumbers)) : Prop :=
  match r1, r2 with
  | None, None => True
  | Some (OK, s1, a1), Some (OK, s2, a2) => s1 = s2 /\ a1 = a2
  | Some (Error c1 m1, s1, _), Some (Error c2 m2, s2, _) =>
      c1 = c2 /\ m1 = m2 /\ s1 = s2
  | _, _ => False
  end.

(** No character of [s] is [sep]. *)
Fixpoint free_of (sep : ascii) (s : string) : bool :=
  match s with
  | EmptyString => true
  | String c rest => negb (Ascii.eqb c sep) && free_of sep rest
  end.

(** ** A small concrete instance

    Integer columns, slot references and literals as the other node classes,
    and a registry that knows one function, the addition of two columns. *)
Module Demo.

Inductive DemoExpr : Type :=
| SlotRef (column_id : Z) (slot_name : string)
| Literal (value : Z).

#[export] Instance types : ExternalTypes := {|
  ColumnPtr := list Z;
  OtherVExpr := DemoExpr;
  AggregateFunctionPtr := string;
  NativeFunction := string;
  VExprContext := nat;
  TDictFunction := unit
|}.

Definition Int32 : DataType :=
  {| is_nullable := false; get_primitive_type := TYPE_INT; get_name := "INT";
     get_family_name := "INT"; have_maximum_size_of_value := true;
     get_size_of_value_in_memory := 4; get_nested_function := None |}.

Definition UInt8 : DataType :=
  {| is_nullable := false; get_primitive_type := TYPE_BOOLEAN; get_name := "BOOL";
     get_family_name := "BOOL"; have_maximum_size_of_value := true;
     get_size_of_value_in_memory := 1; get_nested_function := None |}.

Definition String_t : DataType :=
  {| is_nullable := false; get_primitive_type := TYPE_STRING; get_name := "String";
     get_family_name := "String"; have_maximum_size_of_value := false;
     get_size_of_value_in_memory := 0; get_nested_function := None |}.

Definition AggState : DataType :=
  {| is_nullable := false; get_primitive_type := TYPE_AGG_STATE;
     get_name := "AggState(sum)"; get_family_name := "AggState";
     have_maximum_size_of_value := false;
     get_size_of_value_in_memory := 0; get_nested_function := Some "sum" |}.

Definition NullableAggState : DataType :=
  {| is_nullable := true; get_primitive_type := TYPE_AGG_STATE;
     get_name := "Nullable(AggState(sum))"; get_family_name := "Nullable";
     have_maximum_size_of_value := false;
     get_size_of_value_in_memory := 0; get_nested_function := Some "sum" |}.

Definition slot (i : Z) (n : string) : VExpr := @Other types (SlotRef i n).
Definition lit (v : Z) : VExpr := @Other types (Literal v).

Definition demo_equals (o : DemoExpr) (other : VExpr) : bool :=
  match o, other with
  | SlotRef i n, Other (SlotRef j m) => Z.eqb i j && String.eqb n m
  | Literal v, Other (Literal w) => Z.eqb v w
  | _, _ => false
  end.

Definition demo_execute (o : DemoExpr) (context : nat) (block : Block) (id : Z)
    : Status * (nat * Block * Z) :=
  match o with
  | SlotRef i _ => (OK, (context, block, i))
  | Literal v =>
      (OK, (context,
            insert block {| column := Some [v]; type := Int32; col_name := "literal" |},
            to_int (columns block)))
  end.

#[export] Instance ops : OtherOps := {|
  other_is_literal := fun o => match o with Literal _ => true | _ => false end;
  other_is_slot_ref := fun o => match o with SlotRef _ _ => true | _ => false end;
  other_get_column_ptr := fun o => match o with Literal v => [v] | _ => [] end;
  other_data_type := fun _ => Int32;
  other_expr_name := fun o => match o with SlotRef _ n => n | Literal _ => "literal" end;
  other_equals := demo_equals;
  other_estimate_memory := fun _ _ => 0%N;
  other_execute := demo_execute
|}.

Definition column_data (block : Block) (i : Z) : list Z :=
  match nth_error block (Z.to_nat i) with
  | Some c => match column c with Some xs => xs | None => [] end
  | None => []
  end.

Fixpoint add_columns (xs ys : list Z) : list Z :=
  match xs, ys with
  | x :: xs', y :: ys' => (x + y)%Z :: add_columns xs' ys'
  | _, _ => []
  end.

Fixpoint fill (block : Block) (i : nat) (data : list Z) : Block :=
  match block, i with
  | [], _ => []
  | c :: t, O => {| column := Some data; type := type c; col_name := col_name c |} :: t
  | c :: t, S i' => c :: fill t i' data
  end.

Definition demo_function_execute (f : FunctionBasePtr) (context : nat) (index : Z)
    (block : Block) (args : ColumnNumbers) (result : Z) (rows : N) (dry_run : bool)
    : Status * (nat * Block) :=
  match f, args with
  | SimpleFunction _, [a; b] =>
      (OK, (context,
            fill block (Z.to_nat result)
              (add_columns (column_data block a) (column_data block b))))
  | _, _ => (Error (OTHER_ERROR 1) "not executable", (context, block))
  end.

Definition demo_child_names (children : list VExpr) : string :=
  String.concat ", " (map expr_name children).

Definition demo_rows (block : Block) : N :=
  match block with
  | c :: _ => match column c with Some xs => N.of_nat (List.length xs) | None => 0%N end
  | [] => 0%N
  end.

(** The collaborators, with the foreign runtime switched on or off. *)
Definition env (java : bool) : Collaborators := {|
  enable_java_support := java;
  debug_point_active := fun _ => false;
  get_debug_param_or_default := fun _ _ default => default;
  DataTypeUInt8 := UInt8;
  VExpr_prepare := fun _ context children => (OK, (children, context));
  get_child_names := demo_child_names;
  register_function_context := fun _ context _ _ => (S context, Z.of_nat context);
  set_dict_function := fun context _ _ => context;
  fast_execute := fun _ _ context block id => (false, (context, block, id));
  check_constant := fun _ _ _ _ => OK;
  get_function := fun fname _ _ _ _ =>
                    if String.eqb fname "add" then Some "add" else None;
  function_execute := demo_function_execute;
  block_rows := demo_rows;
  check_type_and_column := fun _ => OK
|}.

Definition state : RuntimeState := {| enable_decimal256 := false; be_exec_version := 5 |}.

(** A call node as its constructor leaves it. *)
Definition fresh (fname : string) (kind : TFunctionBinaryType) (udtf : bool)
    (ret : DataType) : FnCallFields :=
  {| _fn := {| name := {| function_name := fname |}; binary_type := kind;
               signature := fname ++ "()"; is_udtf_function := udtf;
               dict_function := None |};
     _data_type := ret; _expr_name := ""; _function := None; _function_name := "";
     _fn_context_index := (-1)%Z; _prepare_finished := false;
     _open_finished := false; _getting_const_col := false;
     is_constant := false; _constant_col := None |}.

(** The same node once prepare has bound the native addition. *)
Definition add_node : FnCallFields :=
  fst (fst (snd (prepare (env := env false) state 0%nat
                   (fresh "add" BUILTIN false Int32)
                   [slot 0 "a"; slot 1 "b"]))).

Definition add_children : list VExpr :=
  [slot 0 "a"; slot 1 "b"].

Definition two_columns : Block :=
  [ {| column := Some [1; 2; 3]%Z; type := Int32; col_name := "a" |};
    {| column := Some [10; 20; 30]%Z; type := Int32; col_name := "b" |} ].

Definition start (block : Block) : ExecState :=
  {| st_context := 1%nat; st_block := block; st_calls := [] |}.

(** A node proven constant whose column was materialized during open. *)
Definition const_node : FnCallFields :=
  {| _fn := _fn add_node; _data_type := Int32; _expr_name := "seven";
     _function := _function add_node; _function_name := "add";
     _fn_context_index := 0%Z; _prepare_finished := true;
     _open_finished := true; _getting_const_col := false;
     is_constant := true; _constant_col := Some [7%Z] |}.

(** The state the addition node leaves on the two-column block. *)
Definition add_result : ExecState :=
  Eval vm_compute in
    match execute (env := env false) (FnCall add_node add_children)
            (start two_columns) (-1)%Z with
    | Some (_, s, _) => s
    | None => start []
    end.

End Demo.

(** The same instance for the rest of the interface: opening never fails,
    and a constant node gets the column 7 when it has none. *)
Module DemoLife.

Import Demo.

Definition demo_get_const_col (d : FnCallFields) (children : list VExpr) (context : nat)
    : Status * (FnCallFields * nat) :=
  if is_constant d then
    (OK,
     ({| _fn := _fn d; _data_type := _data_type d; _expr_name := _expr_name d;
         _function := _function d; _function_name := _function_name d;
         _fn_context_index := _fn_context_index d;
         _prepare_finished := _prepare_finished d;
         _open_finished := _open_finished d;
         _getting_const_col := false; is_constant := true;
         _constant_col := match _constant_col d with
                          | Some c => Some c
                          | None => Some [7%Z]
                          end |},
      context))
  else (OK, (d, context)).

(** A slot that cannot be opened is one with a negative column id. *)
Definition demo_open (o : DemoExpr) (state : RuntimeState) (context : nat)
    (scope : FunctionStateScope) : Status * (DemoExpr * nat) :=
  match o with
  | SlotRef i n =>
      if (i <? 0)%Z then (Error (OTHER_ERROR 2) "no such slot", (o, context))
      else (OK, (o, context))
  | Literal _ => (OK, (o, context))
  end.

#[export] Instance life : LifecycleOps := {|
  other_open := demo_open;
  init_function_context := fun _ context _ _ _ => (OK, context);
  get_const_col := demo_get_const_col;
  function_can_push_down_to_index := fun _ => false;
  other_debug_string := fun o =>
    match o with
    | SlotRef _ n => ("SlotRef(" ++ n ++ ")")%string
    | Literal _ => "Literal"
    end
|}.

(** The collaborators with the debug point VectorizedFnCall.must_in_slow_path
    switched on for the columns [names]. *)
Definition debug_env (names : string) : Collaborators := {|
  enable_java_support := false;
  debug_point_active := fun point => String.eqb point "VectorizedFnCall.must_in_slow_path";
  get_debug_param_or_default := fun _ _ _ => names;
  DataTypeUInt8 := UInt8;
  VExpr_prepare := fun _ context children => (OK, (children, context));
  get_child_names := demo_child_names;
  register_function_context := fun _ context _ _ => (S context, Z.of_nat context);
  set_dict_function := fun context _ _ => context;
  fast_execute := fun _ _ context block id => (false, (context, block, id));
  check_constant := fun _ _ _ _ => OK;
  get_function := fun fname _ _ _ _ =>
                    if String.eqb fname "add" then Some "add" else None;
  function_execute := demo_function_execute;
  block_rows := demo_rows;
  check_type_and_column := fun _ => OK
|}.

(** A tree of call nodes only: an addition of two constants. *)
Definition nested : VExpr :=
  FnCall add_node [FnCall const_node []; FnCall const_node []].

(** The addition node before it is a materialized constant. *)
Definition pending_const : FnCallFields :=
  {| _fn := _fn add_node; _data_type := Int32; _expr_name := "seven";
     _function := _function add_node; _function_name := "add";
     _fn_context_index := 0%Z; _prepare_finished := true;
     _open_finished := false; _getting_const_col := false;
     is_constant := true; _constant_col := None |}.

(** The collaborators with a fast path that may answer, and checks and a
    bound function that may fail. *)
Definition faulty_env (fast constant_ok function_ok types_ok : bool) : Collaborators := {|
  enable_java_support := false;
  debug_point_active := fun _ => false;
  get_debug_param_or_default := fun _ _ default => default;
  DataTypeUInt8 := UInt8;
  VExpr_prepare := fun _ context children => (OK, (children, context));
  get_child_names := demo_child_names;
  register_function_context := fun _ context _ _ => (S context, Z.of_nat context);
  set_dict_function := fun context _ _ => context;
  fast_execute := fun _ _ context block id =>
                    if fast then (true, (context, block, 0%Z))
                    else (false, (context, block, id));
  check_constant := fun _ _ _ _ =>
                      if constant_ok then OK
                      else Error INTERNAL_ERROR "unexpected constant column";
  get_function := fun fname _ _ _ _ =>
                    if String.eqb fname "add" then Some "add" else None;
  function_execute := fun f context index block args result rows dry_run =>
                        if function_ok
                        then demo_function_execute f context index block args result
                               rows dry_run
                        else (Error (OTHER_ERROR 7) "backend failed", (context, block));
  block_rows := demo_rows;
  check_type_and_column := fun _ =>
                             if types_ok then OK
                             else Error INTERNAL_ERROR "column type mismatch"
|}.

(** A remote node, which the demo function cannot execute. *)
Definition rpc_node : FnCallFields :=
  fst (fst (snd (prepare (env := env false) state 0%nat
                   (fresh "remote" RPC false Int32) []))).

(** The state once the two slots of the addition were executed. *)
Definition after_slots : ExecState :=
  {| st_context := 1%nat; st_block := two_columns;
     st_calls := [ChildExecute (slot 1 "b"); ChildExecute (slot 0 "a")] |}.

End DemoLife.

(** * Properties *)

Section Properties.

Context {T : ExternalTypes} {ops : OtherOps} {env : Collaborators}.

(** Induction on a tree with the hypothesis on every child. *)
Lemma VExpr_nested_ind (P : VExpr -> Prop) :
  (forall d children, Forall P children -> P (FnCall d children)) ->
  (forall o, P (Other o)) ->
  forall e, P e.
Proof.
  intros Hcall Hother.
  fix IH 1.
  intros [d children | o].
  - apply Hcall.
    induction children as [| c rest IHrest]; constructor.
    + apply IH.
    + exact IHrest.
  - apply Hother.
Qed.

(** ** Structural equality *)

Lemma equals_FnCall_unfold (d d' : FnCallFields) (cs cs' : list VExpr) :
  equals (FnCall d cs) (FnCall d' cs')
  = String.eqb (_function_name d) (_function_name d')
    && Nat.eqb (List.length cs) (List.length cs')
    && forallb (fun p => equals (fst p) (snd p)) (combine cs cs').
Proof.
  cbn [equals].
  destruct (String.eqb (_function_name d) (_function_name d')); cbn [negb andb]; trivial.
  destruct (Nat.eqb (List.length cs) (List.length cs')); cbn [negb andb]; trivial.
  revert cs'.
  induction cs as [| c cs IH]; intros [| c' cs']; cbn [combine forallb fst snd]; trivial.
  destruct (equals c c'); cbn [negb andb]; [apply IH | reflexivity].
Qed.

Lemma pairwise_Forall2 (cs cs' : list VExpr) :
  List.length cs = List.length cs' ->
  (forallb (fun p => equals (fst p) (snd p)) (combine cs cs') = true
   <-> Forall2 (fun c c' => equals c c' = true) cs cs').
Proof.
  revert cs'.
  induction cs as [| c cs IH]; intros [| c' cs'] Hlen; cbn in Hlen; try discriminate.
  - split; [constructor | reflexivity].
  - injection Hlen as Hlen.
    cbn [combine forallb fst snd].
    rewrite andb_true_iff, (IH cs' Hlen).
    split.
    + intros [Hc Hrest]. constructor; assumption.
    + intros H. inversion H; subst. split; assumption.
Qed.

Lemma equals_FnCall_iff (d d' : FnCallFields) (cs cs' : list VExpr) :
  equals (FnCall d cs) (FnCall d' cs') = true
  <-> _function_name d = _function_name d'
      /\ List.length cs = List.length cs'
      /\ Forall2 (fun c c' => equals c c' = true) cs cs'.
Proof.
  rewrite equals_FnCall_unfold, !andb_true_iff, String.eqb_eq, Nat.eqb_eq.
  split.
  - intros [[Hn Hl] Hp]. repeat split; trivial. apply pairwise_Forall2; assumption.
  - intros (Hn & Hl & Hp). repeat split; trivial. apply pairwise_Forall2; assumption.
Qed.

Lemma Forall2_nth_error (cs cs' : list VExpr) (i : nat) (c c' : VExpr) :
  Forall2 (fun c c' => equals c c' = true) cs cs' ->
  nth_error cs i = Some c -> nth_error cs' i = Some c' ->
  equals c c' = true.
Proof.
  intros H. revert i.
  induction H as [| x y l l' Hxy _ IH]; intros [| i]; cbn; try discriminate.
  - intros [= <-] [= <-]. exact Hxy.
  - apply IH.
Qed.

Lemma equals_refl (e : VExpr) :
  Forall_other (fun o => other_equals o (Other o) = true) e ->
  equals e e = true.
Proof.
  induction e as [d children IH | o] using VExpr_nested_ind; intros Hother.
  - apply equals_FnCall_iff. repeat split.
    cbn [Forall_other] in Hother.
    induction children as [| c rest IHrest]; constructor.
    + inversion IH; subst. apply H1. apply Hother.
    + inversion IH; subst. apply IHrest; [assumption | apply Hother].
  - exact Hother.
Qed.

(** C8: [equals] of a call node is reflexive (given that every node of
    another class inside it equals itself), is true exactly when the other
    node is a call node with the same function name, the same number of
    children and pairwise equal children in order, and is false for a node
    of another class, for a different function name, for a different number
    of children and whenever one pair of corresponding children is not
    equal. *)
Theorem equals_structural (d : FnCallFields) (children : list VExpr) :
  (Forall_other (fun o => other_equals o (Other o) = true) (FnCall d children) ->
   equals (FnCall d children) (FnCall d children) = true)
  /\ (forall other,
        equals (FnCall d children) other = true
        <-> exists d' children',
              other = FnCall d' children'
              /\ _function_name d = _function_name d'
              /\ List.length children = List.length children'
              /\ Forall2 (fun c c' => equals c c' = true) children children')
  /\ (forall o, equals (FnCall d children) (Other o) = false)
  /\ (forall d' children',
        _function_name d <> _function_name d' ->
        equals (FnCall d children) (FnCall d' children') = false)
  /\ (forall d' children',
        List.length children <> List.length children' ->
        equals (FnCall d children) (FnCall d' children') = false)
  /\ (forall d' children' i c c',
        nth_error children i = Some c ->
        nth_error children' i = Some c' ->
        equals c c' = false ->
        equals (FnCall d children) (FnCall d' children') = false).
Proof.
  split; [apply equals_refl |].
  split.
  { intros [d' children' | o].
    - rewrite equals_FnCall_iff. split.
      + intros H. exists d', children'. split; [reflexivity | exact H].
      + intros (d2 & cs2 & [= <- <-] & H). exact H.
    - cbn. split; [discriminate |].
      intros (d2 & cs2 & Habs & _). discriminate. }
  split; [reflexivity |].
  split; [| split].
  - intros d' children' Hn.
    apply not_true_is_false. rewrite equals_FnCall_iff. tauto.
  - intros d' children' Hl.
    apply not_true_is_false. rewrite equals_FnCall_iff. tauto.
  - intros d' children' i c c' Hc Hc' Hneq.
    apply not_true_is_false. rewrite equals_FnCall_iff.
    intros (_ & _ & Hp).
    rewrite (Forall2_nth_error _ _ _ _ _ Hp Hc Hc') in Hneq. discriminate.
Qed.

(** C9: [equals] reads the function name and the children only: two call
    nodes with the same function name and pairwise equal children (hence as
    many) are equal whatever their declared return types, backend kinds and
    bound executables are. *)
Theorem equals_ignores_return_type (d d' : FnCallFields) (children children' : list VExpr)
    (Hname : _function_name d = _function_name d')
    (Hcount : List.length children = List.length children')
    (Hchildren : Forall2 (fun c c' => equals c c' = true) children children') :
  equals (FnCall d children) (FnCall d' children') = true.
Proof.
  apply equals_FnCall_iff. auto.
Qed.

(** ** prepare *)

Lemma substring_all (s : string) : substring 0 (String.length s) s = s.
Proof. induction s as [| c s IH]; cbn; [reflexivity | now rewrite IH]. Qed.

Lemma length_append (p s : string) :
  String.length (p ++ s)%string = (String.length p + String.length s)%nat.
Proof. induction p as [| c p IH]; cbn; [reflexivity | now rewrite IH]. Qed.

Lemma substring_append_suffix (p s : string) :
  substring (String.length p) (String.length s) (p ++ s)%string = s.
Proof. induction p as [| c p IH]; cbn; [apply substring_all | exact IH]. Qed.

Lemma substring_split (s : string) (k : nat) :
  (k <= String.length s)%nat ->
  s = (substring 0 k s ++ substring k (String.length s - k) s)%string.
Proof.
  revert k.
  induction s as [| c s IH]; intros [| k] Hk; cbn in *; try reflexivity; try lia.
  - now rewrite substring_all.
  - f_equal. apply IH. lia.
Qed.

(** [match_suffix] holds exactly of the names that end with the suffix. *)
Lemma match_suffix_iff (fname suffix : string) :
  match_suffix fname suffix = true <-> exists p, fname = (p ++ suffix)%string.
Proof.
  unfold match_suffix. split.
  - destruct (Nat.ltb_spec (String.length fname) (String.length suffix)) as [Hlt | Hge];
      [discriminate |].
    intros Heq. apply String.eqb_eq in Heq.
    exists (substring 0 (String.length fname - String.length suffix) fname).
    pose proof (substring_split fname (String.length fname - String.length suffix))
      as Hsplit.
    replace (String.length fname - (String.length fname - String.length suffix))%nat
      with (String.length suffix) in Hsplit by lia.
    rewrite Heq in Hsplit. apply Hsplit. lia.
  - intros [p ->].
    rewrite length_append.
    destruct (Nat.ltb_spec (String.length p + String.length suffix) (String.length suffix));
      [lia |].
    replace (String.length p + String.length suffix - String.length suffix)%nat
      with (String.length p) by lia.
    rewrite substring_append_suffix. apply String.eqb_refl.
Qed.

Lemma PrimitiveType_eqb_eq (a b : PrimitiveType) :
  PrimitiveType_eqb a b = true <-> a = b.
Proof. destruct a, b; cbn; split; congruence. Qed.

(** prepare on a node not prepared yet, once the base class went through. *)
Lemma prepare_fresh (state : RuntimeState) (context context' : VExprContext)
    (d : FnCallFields) (children children' : list VExpr) :
  _prepare_finished d = false ->
  VExpr_prepare state context children = (OK, (children', context')) ->
  prepare state context d children
  = let d1 := set_expr_name d
                ("VectorizedFnCall[" ++ function_name (name (_fn d))
                 ++ "](arguments=" ++ get_child_names children'
                 ++ ",return=" ++ get_name (_data_type d) ++ ")") in
    match bind_function state d1 (build_argument_template children') with
    | inl err => (err, (d1, children', context'))
    | inr d2 =>
        match _function d2 with
        | None =>
            (InternalError
               ("Could not find function " ++ function_name (name (_fn d2))
                ++ ", arg " ++ get_child_names children'
                ++ " return " ++ get_name (_data_type d2) ++ " "),
             (d2, children', context'))
        | Some _ =>
            let '(context2, index) :=
              register_function_context state context' d2 children' in
            let d3 := set_prepared d2 index (function_name (name (_fn d2))) in
            (OK, (d3, children',
                  match dict_function (_fn d3) with
                  | Some f => set_dict_function context2 (_fn_context_index d3) f
                  | None => context2
                  end))
        end
    end.
Proof.
  intros Hfresh Hbase.
  unfold prepare, already_prepared. rewrite Hfresh, Hbase. reflexivity.
Qed.

(** An error of the base class leaves the node as it was. *)
Lemma prepare_base_error (state : RuntimeState) (context context' : VExprContext)
    (d : FnCallFields) (children children' : list VExpr) (c : ErrorCode) (m : string) :
  _prepare_finished d = false ->
  VExpr_prepare state context children = (Error c m, (children', context')) ->
  prepare state context d children = (Error c m, (d, children', context')).
Proof.
  intros Hfresh Hbase.
  unfold prepare, already_prepared. rewrite Hfresh, Hbase. reflexivity.
Qed.

(** The three facts about a failed prepare that hold by computation. *)
Ltac failing_prepare Hfresh :=
  refine (conj _ (conj _ (conj _ _))); [reflexivity | reflexivity | exact Hfresh |].

(** C3: on a state-merge node not prepared yet, a nullable return type or
    one that is not the aggregate-state type makes prepare fail and bind
    nothing, whatever the function name; once the base class went through,
    the failure is an internal (binding) error, the one about the return type
    when the name carries the suffix. Conversely a successful prepare has
    bound the state-merge executable and the return type is the non-nullable
    aggregate-state type. *)
Theorem prepare_agg_state_return_type (state : RuntimeState) (context : VExprContext)
    (d : FnCallFields) (children : list VExpr)
    (Hkind : binary_type (_fn d) = AGG_STATE)
    (Hfresh : _prepare_finished d = false) :
  let r := prepare state context d children in
  (is_nullable (_data_type d) = true
   \/ get_primitive_type (_data_type d) <> TYPE_AGG_STATE ->
   ok (fst r) = false
   /\ _function (node_after r) = _function d
   /\ _prepare_finished (node_after r) = false
   /\ (forall children' context',
         VExpr_prepare state context children = (OK, (children', context')) ->
         (exists msg, fst r = InternalError msg)
         /\ (match_suffix (function_name (name (_fn d))) AGG_STATE_SUFFIX = true ->
             fst r = (if is_nullable (_data_type d)
                      then InternalError "State function's return type must be not nullable"
                      else InternalError
                             ("State function's return type must be agg_state but get "
                              ++ get_family_name (_data_type d))))))
  /\ (fst r = OK ->
      is_nullable (_data_type d) = false
      /\ get_primitive_type (_data_type d) = TYPE_AGG_STATE
      /\ exists argument_types,
           _function (node_after r)
           = Some (FunctionAggState_create argument_types (_data_type d)
                     (get_nested_function (_data_type d)))).
Proof.
  intros r. subst r.
  destruct (VExpr_prepare state context children) as [st [children' context']] eqn:Hbase.
  destruct st as [| c m].
  - rewrite (prepare_fresh _ _ _ _ _ _ Hfresh Hbase).
    cbv zeta. unfold bind_function. cbn [_fn _data_type set_expr_name].
    rewrite Hkind.
    destruct (match_suffix (function_name (name (_fn d))) AGG_STATE_SUFFIX) eqn:Hsuffix.
    + destruct (is_nullable (_data_type d)) eqn:Hnull.
      * split.
        -- intros _. cbn. failing_prepare Hfresh.
           intros cs' ctx' [= <- <-]. split; [eexists; reflexivity | reflexivity].
        -- cbn. discriminate.
      * destruct (PrimitiveType_eqb (get_primitive_type (_data_type d)) TYPE_AGG_STATE)
          eqn:Hprim; cbn [negb].
        -- apply PrimitiveType_eqb_eq in Hprim.
           split.
           ++ intros [Habs | Habs]; [discriminate | contradiction].
           ++ cbn [_function set_function].
              destruct (register_function_context _ _ _ _) as [context2 index].
              intros _. cbn. repeat split; trivial. eexists; reflexivity.
        -- split.
           ++ intros _. cbn. failing_prepare Hfresh.
              intros cs' ctx' [= <- <-]. split; [eexists; reflexivity | reflexivity].
           ++ cbn. discriminate.
    + split.
      * intros _. cbn. failing_prepare Hfresh.
        intros cs' ctx' [= <- <-]. split; [eexists; reflexivity | discriminate].
      * cbn. discriminate.
  - rewrite (prepare_base_error _ _ _ _ _ _ _ _ Hfresh Hbase).
    split.
    + intros _. cbn. failing_prepare Hfresh.
      intros cs' ctx' [=].
    + cbn. discriminate.
Qed.

(** C4: on a state-merge node not prepared yet whose function name does not
    end with _state, prepare fails and binds nothing, whatever the return
    type; once the base class went through, the failure is the internal
    (binding) error that names the function's signature. *)
Theorem prepare_agg_state_suffix (state : RuntimeState) (context : VExprContext)
    (d : FnCallFields) (children : list VExpr)
    (Hkind : binary_type (_fn d) = AGG_STATE)
    (Hfresh : _prepare_finished d = false)
    (Hsuffix : ~ exists p, function_name (name (_fn d)) = (p ++ "_state")%string) :
  let r := prepare state context d children in
  ok (fst r) = false
  /\ _function (node_after r) = _function d
  /\ _prepare_finished (node_after r) = false
  /\ (forall children' context',
        VExpr_prepare state context children = (OK, (children', context')) ->
        fst r = InternalError
                  ("Function " ++ signature (_fn d) ++ " is not endwith '_state'")).
Proof.
  intros r. subst r.
  assert (Hmatch : match_suffix (function_name (name (_fn d))) AGG_STATE_SUFFIX = false).
  { apply not_true_is_false. intros H. apply Hsuffix, match_suffix_iff, H. }
  destruct (VExpr_prepare state context children) as [st [children' context']] eqn:Hbase.
  destruct st as [| c m].
  - rewrite (prepare_fresh _ _ _ _ _ _ Hfresh Hbase).
    cbv zeta. unfold bind_function. cbn [_fn _data_type set_expr_name].
    rewrite Hkind, Hmatch. cbn. failing_prepare Hfresh.
    intros cs' ctx' _. reflexivity.
  - rewrite (prepare_base_error _ _ _ _ _ _ _ _ Hfresh Hbase).
    cbn. failing_prepare Hfresh.
    intros cs' ctx' [=].
Qed.

(** C5: on a foreign-runtime node not prepared yet, with enable_java_support
    off, prepare fails and binds nothing; once the base class went through,
    the failure is an internal (binding) error whose message names
    enable_java_support. *)
Theorem prepare_java_disabled (state : RuntimeState) (context : VExprContext)
    (d : FnCallFields) (children : list VExpr)
    (Hkind : binary_type (_fn d) = JAVA_UDF)
    (Hfresh : _prepare_finished d = false)
    (Hconfig : enable_java_support = false) :
  let r := prepare state context d children in
  ok (fst r) = false
  /\ _function (node_after r) = _function d
  /\ _prepare_finished (node_after r) = false
  /\ (forall children' context',
        VExpr_prepare state context children = (OK, (children', context')) ->
        exists msg,
          fst r = InternalError msg
          /\ msg = "Java UDF is not enabled, you can change be config enable_java_support to true and restart be."
          /\ contains "enable_java_support" msg = true).
Proof.
  intros r. subst r.
  destruct (VExpr_prepare state context children) as [st [children' context']] eqn:Hbase.
  destruct st as [| c m].
  - rewrite (prepare_fresh _ _ _ _ _ _ Hfresh Hbase).
    cbv zeta. unfold bind_function. cbn [_fn _data_type set_expr_name].
    rewrite Hkind, Hconfig. cbn. failing_prepare Hfresh.
    intros cs' ctx' _. eexists. split; [reflexivity |]. split; reflexivity.
  - rewrite (prepare_base_error _ _ _ _ _ _ _ _ Hfresh Hbase).
    cbn. failing_prepare Hfresh.
    intros cs' ctx' [=].
Qed.

(** C6: on a node not prepared yet whose backend kind is none of remote,
    foreign-runtime and state-merge, when the base class went through and the
    registry has no function for the name, the argument template, the return
    type and the environment flags, prepare fails with the internal (binding)
    error that names the function, the children and the return type, and the
    node stays unbound and unprepared. *)
Theorem prepare_native_miss (state : RuntimeState) (context context' : VExprContext)
    (d : FnCallFields) (children children' : list VExpr)
    (Hrpc : binary_type (_fn d) <> RPC)
    (Hjava : binary_type (_fn d) <> JAVA_UDF)
    (Hagg : binary_type (_fn d) <> AGG_STATE)
    (Hfresh : _prepare_finished d = false)
    (Hbase : VExpr_prepare state context children = (OK, (children', context')))
    (Hmiss : get_function (function_name (name (_fn d)))
               (build_argument_template children') (_data_type d)
               (enable_decimal256 state) (be_exec_version state) = None) :
  let r := prepare state context d children in
  fst r = InternalError
            ("Could not find function " ++ function_name (name (_fn d))
             ++ ", arg " ++ get_child_names children'
             ++ " return " ++ get_name (_data_type d) ++ " ")
  /\ _function (node_after r) = None
  /\ _prepare_finished (node_after r) = false.
Proof.
  intros r. subst r.
  rewrite (prepare_fresh _ _ _ _ _ _ Hfresh Hbase).
  cbv zeta. unfold bind_function. cbn [_fn _data_type set_expr_name].
  destruct (binary_type (_fn d)); try contradiction;
    rewrite Hmiss; cbn; auto.
Qed.

(** C10: on a foreign-runtime node not prepared yet, with the runtime enabled
    and a table-generating function, prepare succeeds once the base class
    went through, and what it binds is the fake executable built for the
    UInt8 return type: the node keeps its declared return type, and the two
    differ whenever the declared type is not UInt8. *)
Theorem prepare_udtf_fake (state : RuntimeState) (context context' : VExprContext)
    (d : FnCallFields) (children children' : list VExpr)
    (Hkind : binary_type (_fn d) = JAVA_UDF)
    (Hconfig : enable_java_support = true)
    (Hudtf : is_udtf_function (_fn d) = true)
    (Hfresh : _prepare_finished d = false)
    (Hbase : VExpr_prepare state context children = (OK, (children', context'))) :
  let r := prepare state context d children in
  fst r = OK
  /\ _prepare_finished (node_after r) = true
  /\ _function (node_after r)
     = Some (FunctionFake_UDTFImpl_build (build_argument_template children') DataTypeUInt8)
  /\ _data_type (node_after r) = _data_type d
  /\ (forall f, _function (node_after r) = Some f ->
                factory_return_type f = Some DataTypeUInt8)
  /\ (_data_type d <> DataTypeUInt8 ->
      forall f, _function (node_after r) = Some f ->
                factory_return_type f <> Some (_data_type (node_after r))).
Proof.
  intros r. subst r.
  rewrite (prepare_fresh _ _ _ _ _ _ Hfresh Hbase).
  cbv zeta. unfold bind_function. cbn [_fn _data_type set_expr_name].
  rewrite Hkind, Hconfig, Hudtf. cbn [_function set_function].
  destruct (register_function_context _ _ _ _) as [context2 index].
  cbn. repeat split.
  - intros f [= <-]. reflexivity.
  - intros Hdiff f [= <-]. cbn. congruence.
Qed.

(** ** execute *)

(** The debug point only ever forces an error. *)
Lemma must_in_slow_path_forced (children : list VExpr) (st : Status) :
  must_in_slow_path children = Forced st -> ok st = false.
Proof.
  unfold must_in_slow_path.
  destruct (debug_point_active _); [| discriminate].
  destruct children as [| child0 rest]; [discriminate |].
  destruct (is_slot_ref child0); [| discriminate].
  destruct (existsb _ _); [discriminate |].
  intros [= <-]. reflexivity.
Qed.

Lemma to_int_small (z : Z) :
  (0 <= z < 2147483648)%Z -> to_int (to_uint32 z) = z.
Proof.
  intros Hz. unfold to_int, to_uint32.
  rewrite Z.mod_mod by lia.
  rewrite (Z.mod_small z) by lia.
  destruct (Z.ltb_spec z 2147483648); lia.
Qed.

Lemma nth_error_insert (block : Block) (c : ColumnWithTypeAndName) :
  nth_error (insert block c) (List.length block) = Some c.
Proof.
  unfold insert. rewrite nth_error_app2 by lia.
  rewrite Nat.sub_diag. reflexivity.
Qed.

(** The general path of [_do_execute], for any argument buffer. *)
Lemma _do_execute_general (d : FnCallFields) (children : list VExpr)
    (s s' : ExecState) (id id' : Z) (args args' : ColumnNumbers) :
  is_const_and_have_executed d = false ->
  fst (fast_execute d children (st_context s) (st_block s) id) = false ->
  _do_execute d children s id args = Some (OK, s', id', args') ->
  exists s2 f context4,
    execute_children execute children 0 (after_fast_execute d children s id)
      (resize (List.length children) args)
    = Some (OK, s2, args')
    /\ check_constant d children (st_block s2) args' = OK
    /\ _function d = Some f
    /\ (let block3 :=
          insert (st_block s2)
            {| column := None; type := _data_type d; col_name := _expr_name d |} in
        function_execute f (st_context s2) (_fn_context_index d) block3 args'
          (columns (st_block s2)) (block_rows block3) false
        = (OK, (context4, st_block s')))
    /\ st_calls s' = FunctionExecute f args' (columns (st_block s2)) :: st_calls s2
    /\ id' = to_int (columns (st_block s2)).
Proof.
  intros Hconst Hfast.
  unfold _do_execute, _do_execute_with, after_fast_execute. rewrite Hconst.
  destruct (fast_execute d children (st_context s) (st_block s) id)
    as [fast [[context1 block1] id1]].
  cbn in Hfast. subst fast. cbn [fst snd].
  destruct (must_in_slow_path children) as [| st |] eqn:Hdebug; [| | discriminate].
  2: { intros [= -> _ _ _]. apply must_in_slow_path_forced in Hdebug. discriminate. }
  match goal with
  | |- context [execute_children _ _ _ ?s1 _] => set (s1' := s1)
  end.
  destruct (execute_children execute children 0 s1' (resize (List.length children) args))
    as [[[st s2] args2] |] eqn:Hchildren; [| discriminate].
  destruct st; [| discriminate].
  destruct (check_constant d children (st_block s2) args2) eqn:Hcheck; [| discriminate].
  destruct (_function d) as [f |]; [| discriminate].
  destruct (function_execute _ _ _ _ _ _ _ _) as [st [context4 block4]] eqn:Hfn.
  destruct st; [| discriminate].
  destruct (check_type_and_column block4); [| discriminate].
  intros [= <- <- <-].
  exists s2, f, context4.
  repeat split; try reflexivity; assumption.
Qed.

(** C1: a successful [execute] of a call node that is not a materialized
    constant and whose fast path declined has run the children, then
    appended to the block they left one column without data, of the node's
    return type and under its name, at the index equal to the number of
    columns held until then, and has run the bound function on that block
    with that index as the result position; the function's block is the one
    returned. The index returned is that number, as an int: the number
    itself for a block of fewer than 2^31 columns. *)
Theorem execute_appends_result_column (d : FnCallFields) (children : list VExpr)
    (s s' : ExecState) (id id' : Z)
    (Hconst : is_const_and_have_executed d = false)
    (Hfast : fst (fast_execute d children (st_context s) (st_block s) id) = false)
    (Hexec : execute (FnCall d children) s id = Some (OK, s', id')) :
  exists s2 args f context4,
    execute_children execute children 0 (after_fast_execute d children s id)
      (resize (List.length children) [])
    = Some (OK, s2, args)
    /\ _function d = Some f
    /\ (let result_column :=
          {| column := None; type := _data_type d; col_name := _expr_name d |} in
        let block3 := st_block s2 ++ [result_column] in
        nth_error block3 (List.length (st_block s2)) = Some result_column
        /\ List.length block3 = S (List.length (st_block s2))
        /\ function_execute f (st_context s2) (_fn_context_index d) block3 args
             (columns (st_block s2)) (block_rows block3) false
           = (OK, (context4, st_block s')))
    /\ id' = to_int (columns (st_block s2))
    /\ ((Z.of_nat (List.length (st_block s2)) < 2147483648)%Z ->
        id' = Z.of_nat (List.length (st_block s2))).
Proof.
  cbn [execute] in Hexec.
  destruct (_do_execute_with execute d children s id [])
    as [[[[st s0] id0] args0] |] eqn:Hdo; [| discriminate].
  injection Hexec as -> -> ->.
  destruct (_do_execute_general _ _ _ _ _ _ _ _ Hconst Hfast Hdo)
    as (s2 & f & context4 & Hchildren & _ & Hf & Hfn & _ & Hid).
  exists s2, args0, f, context4.
  split; [exact Hchildren |].
  split; [exact Hf |].
  split.
  { cbv zeta. split; [apply nth_error_insert |].
    split; [rewrite length_app; cbn; lia | exact Hfn]. }
  split; [exact Hid |].
  intros Hsmall. rewrite Hid. unfold columns. apply to_int_small. lia.
Qed.

(** What [_do_execute] does on a materialized constant. *)
Lemma _do_execute_constant (d : FnCallFields) (c : ColumnPtr) (children : list VExpr)
    (s : ExecState) (id : Z) (args : ColumnNumbers) :
  is_constant d = true ->
  _constant_col d = Some c ->
  _do_execute d children s id args
  = Some (OK,
          {| st_context := st_context s;
             st_block := st_block s ++ [ {| column := Some c; type := _data_type d;
                                            col_name := _expr_name d |} ];
             st_calls := st_calls s |},
          to_int (columns (st_block s)), args).
Proof.
  intros Hc Hcol.
  unfold _do_execute, _do_execute_with, is_const_and_have_executed, get_result_from_const.
  rewrite Hc, Hcol. reflexivity.
Qed.

(** C2: a node proven constant and evaluated during open has one cached
    column, and every [execute] (and [execute_runtime_filter]) succeeds by
    appending that column under the node's type and name: no call to a child
    or to the bound function is logged, the context and the argument buffer
    are untouched, the block gains this one column and nothing else, and a
    second call appends the same column again. *)
Theorem execute_constant_short_circuit (d : FnCallFields) (children : list VExpr)
    (Hconst : is_const_and_have_executed d = true) :
  exists c,
    _constant_col d = Some c
    /\ let cached := {| column := Some c; type := _data_type d;
                        col_name := _expr_name d |} in
       (forall s id args,
          execute_runtime_filter d children s id args
          = Some (OK,
                  {| st_context := st_context s; st_block := st_block s ++ [cached];
                     st_calls := st_calls s |},
                  to_int (columns (st_block s)), args))
       /\ (forall s id,
             execute (FnCall d children) s id
             = Some (OK,
                     {| st_context := st_context s; st_block := st_block s ++ [cached];
                        st_calls := st_calls s |},
                     to_int (columns (st_block s))))
       /\ (forall s id s1 id1 id2,
             execute (FnCall d children) s id = Some (OK, s1, id1) ->
             exists s2 id2',
               execute (FnCall d children) s1 id2 = Some (OK, s2, id2')
               /\ st_block s2 = st_block s ++ [cached; cached]
               /\ st_calls s2 = st_calls s
               /\ st_context s2 = st_context s).
Proof.
  unfold is_const_and_have_executed in Hconst.
  apply andb_true_iff in Hconst. destruct Hconst as [Hc Hcol].
  destruct (_constant_col d) as [c |] eqn:Hcached; [| discriminate].
  exists c. split; [reflexivity |].
  cbv zeta.
  assert (Hexec : forall s id,
             execute (FnCall d children) s id
             = Some (OK,
                     {| st_context := st_context s;
                        st_block := st_block s ++ [ {| column := Some c;
                                                       type := _data_type d;
                                                       col_name := _expr_name d |} ];
                        st_calls := st_calls s |},
                     to_int (columns (st_block s)))).
  { intros s id. cbn [execute].
    fold (_do_execute d children s id []).
    rewrite (_do_execute_constant d c children s id [] Hc Hcached). reflexivity. }
  split; [| split].
  - intros s id args. unfold execute_runtime_filter.
    apply _do_execute_constant; assumption.
  - exact Hexec.
  - intros s id s1 id1 id2 H1.
    rewrite Hexec in H1. injection H1 as <- <-.
    rewrite Hexec. eexists. eexists. split; [reflexivity |].
    cbn. rewrite <- app_assoc. auto.
Qed.

(** ** estimate_memory *)

Lemma to_size_t_add_l (a b : N) : to_size_t (to_size_t a + b) = to_size_t (a + b).
Proof. unfold to_size_t. apply N.Div0.add_mod_idemp_l. Qed.

Lemma to_size_t_add_r (a b : N) : to_size_t (a + to_size_t b) = to_size_t (a + b).
Proof. unfold to_size_t. apply N.Div0.add_mod_idemp_r. Qed.

Lemma to_size_t_small (a : N) :
  (a < 18446744073709551616)%N -> to_size_t a = a.
Proof. intros H. unfold to_size_t. apply N.mod_small, H. Qed.

(** The loop over the children adds up their estimates modulo 2^64. *)
Lemma estimate_loop (children : list VExpr) (rows a : N) :
  fold_left (fun acc child => to_size_t (acc + estimate_memory child rows))
            children (to_size_t a)
  = to_size_t (a + children_estimate children rows).
Proof.
  revert a.
  induction children as [| c rest IH]; intros a; cbn [fold_left children_estimate fold_right].
  - now rewrite N.add_0_r.
  - rewrite to_size_t_add_l, IH.
    fold (children_estimate rest rows).
    now rewrite N.add_assoc.
Qed.

Lemma estimate_memory_FnCall (d : FnCallFields) (children : list VExpr) (rows : N) :
  is_const_and_have_executed d = false ->
  estimate_memory (FnCall d children) rows
  = to_size_t (children_estimate children rows + rows * per_row_size d).
Proof.
  intros Hconst. cbn [estimate_memory]. rewrite Hconst.
  change 0%N with (to_size_t 0) at 1 2.
  rewrite !estimate_loop. cbn [N.add].
  unfold per_row_size.
  destruct (have_maximum_size_of_value (_data_type d));
    now rewrite to_size_t_add_l, to_size_t_add_r.
Qed.

Lemma children_estimate_zero (children : list VExpr) :
  Forall (fun c => estimate_memory c 0 = 0%N) children ->
  children_estimate children 0 = 0%N.
Proof.
  induction 1 as [| c rest Hc _ IH]; cbn; [reflexivity |].
  fold (children_estimate rest 0). now rewrite Hc, IH.
Qed.

Lemma children_estimate_mono (children : list VExpr) (r1 r2 : N) :
  Forall (fun c => (estimate_memory c r1 <= estimate_memory c r2)%N) children ->
  (children_estimate children r1 <= children_estimate children r2)%N.
Proof.
  induction 1 as [| c rest Hc _ IH]; cbn; [lia |].
  fold (children_estimate rest r1) (children_estimate rest r2). lia.
Qed.

(** C7, amended: a materialized constant costs 0; any other call node costs
    the sum of its children's estimates plus the row count times the
    per-value size of its return type (512 without one), the whole taken
    modulo 2^64; this is 0 at 0 rows when the children cost 0 there; and it
    does not decrease from one row count to a larger one when no child's
    estimate does and the sum at the larger count stays below 2^64. *)
Theorem estimate_memory_policy (d : FnCallFields) (children : list VExpr) :
  (is_const_and_have_executed d = true ->
   forall rows, estimate_memory (FnCall d children) rows = 0%N)
  /\ (is_const_and_have_executed d = false ->
      forall rows,
        estimate_memory (FnCall d children) rows
        = ((children_estimate children rows + rows * per_row_size d)
           mod 18446744073709551616)%N)
  /\ (is_const_and_have_executed d = false ->
      Forall (fun c => estimate_memory c 0 = 0%N) children ->
      estimate_memory (FnCall d children) 0 = 0%N)
  /\ (forall r1 r2,
        (r1 <= r2)%N ->
        Forall (fun c => (estimate_memory c r1 <= estimate_memory c r2)%N) children ->
        (children_estimate children r2 + r2 * per_row_size d < 18446744073709551616)%N ->
        (estimate_memory (FnCall d children) r1
         <= estimate_memory (FnCall d children) r2)%N).
Proof.
  split; [| split; [| split]].
  - intros Hconst rows. cbn [estimate_memory]. now rewrite Hconst.
  - intros Hconst rows. apply estimate_memory_FnCall, Hconst.
  - intros Hconst Hzero.
    rewrite (estimate_memory_FnCall _ _ _ Hconst), (children_estimate_zero _ Hzero).
    reflexivity.
  - intros r1 r2 Hle Hmono Hfit.
    destruct (is_const_and_have_executed d) eqn:Hconst.
    + cbn [estimate_memory]. rewrite Hconst. lia.
    + rewrite !(estimate_memory_FnCall _ _ _ Hconst).
      pose proof (children_estimate_mono _ _ _ Hmono) as Hsum.
      assert (Hmul : (r1 * per_row_size d <= r2 * per_row_size d)%N)
        by (apply N.mul_le_mono_r, Hle).
      rewrite !to_size_t_small by lia. lia.
Qed.

End Properties.

(** * Further properties *)

Section MoreProperties.

Context {T : ExternalTypes} {ops : OtherOps} {env : Collaborators}
        {life : LifecycleOps}.

(** ** Equality as a relation *)

Lemma pairwise_sym (cs : list VExpr) :
  Forall (fun c => forall b, equals c b = equals b c) cs ->
  forall cs',
    forallb (fun p => equals (fst p) (snd p)) (combine cs cs')
    = forallb (fun p => equals (fst p) (snd p)) (combine cs' cs).
Proof.
  induction 1 as [| c rest Hc _ IH]; intros [| c' rest']; cbn [combine forallb fst snd];
    trivial.
  now rewrite Hc, IH.
Qed.

(** X1: when the nodes of other classes answer [equals] the way a call node
    answers them, [equals] is symmetric on all trees. *)
Theorem equals_symmetric
    (Hother : forall o e, other_equals o e = equals e (Other o)) :
  forall a b, equals a b = equals b a.
Proof.
  induction a as [d cs IH | o] using VExpr_nested_ind; intros [d' cs' | o'].
  - rewrite !equals_FnCall_unfold.
    rewrite (String.eqb_sym (_function_name d)), (Nat.eqb_sym (List.length cs)).
    now rewrite (pairwise_sym cs IH).
  - cbn [equals]. rewrite Hother. reflexivity.
  - cbn [equals]. apply Hother.
  - cbn [equals]. apply Hother.
Qed.

(** X2: when [equals] of the other classes carries over along [equals],
    [equals] is transitive on all trees. *)
Theorem equals_transitive
    (Hother : forall o b c,
        other_equals o b = true -> equals b c = true -> other_equals o c = true) :
  forall a b c, equals a b = true -> equals b c = true -> equals a c = true.
Proof.
  induction a as [d cs IH | o] using VExpr_nested_ind; intros b c Hab Hbc.
  - destruct b as [d' cs' | o']; [| discriminate].
    destruct c as [d2 cs2 | o2]; [| discriminate].
    apply equals_FnCall_iff in Hab. destruct Hab as (Hn & Hl & Hp).
    apply equals_FnCall_iff in Hbc. destruct Hbc as (Hn' & Hl' & Hp').
    apply equals_FnCall_iff.
    split; [congruence |]. split; [congruence |].
    clear Hn Hn' Hl Hl'. revert cs2 Hp'.
    induction Hp as [| x y l l' Hxy _ IHp]; intros cs2 Hp'.
    + inversion Hp'. constructor.
    + inversion Hp' as [| y' z l2 l3 Hyz Hrest]; subst.
      inversion IH as [| x' l0 Hx Hl0]; subst.
      constructor; [exact (Hx y z Hxy Hyz) | exact (IHp Hl0 _ Hrest)].
  - cbn [equals] in *. exact (Hother o b c Hab Hbc).
Qed.

Lemma skeleton_children (cs : list VExpr) :
  Forall (fun c => Forall_other (fun _ => False) c ->
                   forall b, equals c b = true <-> skeleton c = skeleton b) cs ->
  (fix all (l : list VExpr) : Prop :=
     match l with
     | [] => True
     | c :: t => Forall_other (fun _ => False) c /\ all t
     end) cs ->
  forall cs',
    (List.length cs = List.length cs'
     /\ Forall2 (fun c c' => equals c c' = true) cs cs')
    <-> map skeleton cs = map skeleton cs'.
Proof.
  induction 1 as [| c rest Hc _ IH]; intros Hcalls [| c' rest']; cbn [map List.length].
  - split; [reflexivity | intros _; split; [reflexivity | constructor]].
  - split; [intros [H _]; discriminate | discriminate].
  - split; [intros [H _]; discriminate | discriminate].
  - destruct Hcalls as [Hcall Hrest].
    specialize (IH Hrest rest'). specialize (Hc Hcall c').
    split.
    + intros [Hlen Hp]. inversion Hp; subst.
      f_equal; [apply Hc; assumption |].
      apply IH. split; [congruence | assumption].
    + intros [= Hhead Htail].
      apply IH in Htail. destruct Htail as [Hlen Hp].
      split; [congruence |].
      constructor; [apply Hc; assumption | assumption].
Qed.

(** X3: on a tree made of call nodes only, [equals] holds of exactly the
    trees with the same shape and the same function names: nothing else of a
    node is compared. *)
Theorem equals_iff_skeleton (a : VExpr)
    (Hcalls : Forall_other (fun _ => False) a) :
  forall b, equals a b = true <-> skeleton a = skeleton b.
Proof.
  revert Hcalls.
  induction a as [d cs IH | o] using VExpr_nested_ind; intros Hcalls b.
  - destruct b as [d' cs' | o'].
    + rewrite equals_FnCall_iff. cbn [skeleton].
      cbn [Forall_other] in Hcalls.
      pose proof (skeleton_children cs IH Hcalls cs') as Hcs.
      split.
      * intros (Hn & Hl & Hp). f_equal; [exact Hn | apply Hcs; auto].
      * intros [= Hn Hm]. apply Hcs in Hm. tauto.
    + cbn. split; discriminate.
  - contradiction.
Qed.

(** ** prepare: what a call leaves behind *)

(** The dispatch only ever assigns [_function]. *)
Lemma bind_function_assigns (state : RuntimeState) (d d' : FnCallFields)
    (template : ColumnsWithTypeAndName) :
  bind_function state d template = inr d' ->
  d' = set_function d (_function d').
Proof.
  unfold bind_function.
  destruct (binary_type (_fn d));
    repeat match goal with
           | |- context [if ?b then _ else _] => destruct b
           end;
    intros [= <-]; reflexivity.
Qed.

Lemma build_argument_template_types (children : list VExpr) :
  map type (build_argument_template children) = map data_type children.
Proof.
  unfold build_argument_template. rewrite map_map.
  apply map_ext. intros child. destruct (is_literal child); reflexivity.
Qed.

(** X4: prepare returns OK exactly when it leaves the node marked prepared,
    and it keeps the invariant that a function is bound exactly on a
    prepared node. *)
Theorem prepare_ok_iff_prepared (state : RuntimeState) (context : VExprContext)
    (d : FnCallFields) (children : list VExpr) :
  let r := prepare state context d children in
  (fst r = OK <-> _prepare_finished (node_after r) = true)
  /\ ((_function d <> None <-> _prepare_finished d = true) ->
      (_function (node_after r) <> None <-> _prepare_finished (node_after r) = true)).
Proof.
  intros r. subst r. unfold prepare, already_prepared, node_after.
  destruct (_prepare_finished d) eqn:Hflag.
  { cbn. rewrite Hflag. tauto. }
  destruct (VExpr_prepare state context children) as [st [children' context']].
  destruct st as [| c m].
  2: { cbn. rewrite Hflag. split; [split; discriminate | tauto]. }
  match goal with
  | |- context [bind_function state ?d1 ?t] =>
      destruct (bind_function state d1 t) as [err | d2] eqn:Hbind
  end.
  - assert (Herr : err <> OK).
    { unfold bind_function in Hbind.
      destruct (binary_type _);
        repeat match type of Hbind with
               | context [if ?b then _ else _] => destruct b
               end;
        try discriminate; injection Hbind as <-; discriminate. }
    cbn. rewrite Hflag. split; [split; [contradiction | discriminate] | tauto].
  - pose proof (bind_function_assigns _ _ _ _ Hbind) as Hd2.
    destruct (_function d2) as [f |] eqn:Hf.
    + destruct (register_function_context _ _ _ _) as [context2 index].
      cbn. rewrite Hf. split; [tauto |]. intros _. split; [reflexivity | discriminate].
    + cbn. rewrite Hf. rewrite Hd2. cbn. rewrite Hflag.
      split; [split; discriminate |].
      intros _. split; [contradiction | discriminate].
Qed.

(** X5: once prepare has returned OK, preparing the node again, in any state
    and context and with any children, returns OK and changes nothing. *)
Theorem prepare_idempotent (state state' : RuntimeState) (context context' : VExprContext)
    (d : FnCallFields) (children children' : list VExpr)
    (Hok : fst (prepare state context d children) = OK) :
  prepare state' context' (node_after (prepare state context d children)) children'
  = (OK, (node_after (prepare state context d children), children', context')).
Proof.
  apply (proj1 (prepare_ok_iff_prepared state context d children)) in Hok.
  unfold prepare at 1. unfold already_prepared. rewrite Hok. reflexivity.
Qed.

(** X6: a successful prepare of a node not prepared yet leaves the
    descriptor and the return type alone, copies the descriptor's function
    name into [_function_name], names the node after the function, the
    children and the return type, and binds a function, so that
    [can_push_down_to_index] has one to ask. *)
Theorem prepare_success_fields (state : RuntimeState) (context context' : VExprContext)
    (d : FnCallFields) (children children' : list VExpr)
    (Hfresh : _prepare_finished d = false)
    (Hbase : VExpr_prepare state context children = (OK, (children', context')))
    (Hok : fst (prepare state context d children) = OK) :
  let d' := node_after (prepare state context d children) in
  _fn d' = _fn d
  /\ _data_type d' = _data_type d
  /\ _function_name d' = function_name (name (_fn d))
  /\ expr_name (FnCall d' children')
     = ("VectorizedFnCall[" ++ function_name (name (_fn d))
        ++ "](arguments=" ++ get_child_names children'
        ++ ",return=" ++ get_name (_data_type d) ++ ")")%string
  /\ snd (fst (snd (prepare state context d children))) = children'
  /\ exists f,
       _function d' = Some f
       /\ can_push_down_to_index d' = Some (function_can_push_down_to_index f).
Proof.
  revert Hok. rewrite (prepare_fresh _ _ _ _ _ _ Hfresh Hbase). cbv zeta.
  match goal with
  | |- context [bind_function state ?d1 ?t] =>
      destruct (bind_function state d1 t) as [err | d2] eqn:Hbind
  end.
  - intros Hok. cbn in Hok. subst err.
    unfold bind_function in Hbind.
    destruct (binary_type _);
      repeat match type of Hbind with
             | context [if ?b then _ else _] => destruct b
             end;
      discriminate.
  - pose proof (bind_function_assigns _ _ _ _ Hbind) as Hd2.
    destruct (_function d2) as [f |] eqn:Hf; [| discriminate].
    destruct (register_function_context _ _ _ _) as [context2 index].
    intros _. unfold node_after, can_push_down_to_index. cbn.
    rewrite Hd2. cbn.
    repeat split. exists f. split; reflexivity.
Qed.

(** X7: between two nodes that prepare has just bound, [equals] compares the
    function names of the descriptors, the numbers of children and the
    children. *)
Theorem equals_after_prepare (state1 state2 : RuntimeState)
    (context1 context1' context2 context2' : VExprContext)
    (d1 d2 : FnCallFields) (children1 children1' children2 children2' : list VExpr)
    (Hfresh1 : _prepare_finished d1 = false)
    (Hfresh2 : _prepare_finished d2 = false)
    (Hbase1 : VExpr_prepare state1 context1 children1 = (OK, (children1', context1')))
    (Hbase2 : VExpr_prepare state2 context2 children2 = (OK, (children2', context2')))
    (Hok1 : fst (prepare state1 context1 d1 children1) = OK)
    (Hok2 : fst (prepare state2 context2 d2 children2) = OK) :
  equals (FnCall (node_after (prepare state1 context1 d1 children1)) children1')
         (FnCall (node_after (prepare state2 context2 d2 children2)) children2') = true
  <-> function_name (name (_fn d1)) = function_name (name (_fn d2))
      /\ List.length children1' = List.length children2'
      /\ Forall2 (fun c c' => equals c c' = true) children1' children2'.
Proof.
  rewrite equals_FnCall_iff.
  destruct (prepare_success_fields _ _ _ _ _ _ Hfresh1 Hbase1 Hok1) as (_ & _ & -> & _).
  destruct (prepare_success_fields _ _ _ _ _ _ Hfresh2 Hbase2 Hok2) as (_ & _ & -> & _).
  reflexivity.
Qed.

(** X8: a remote node, and a foreign-runtime node that is no table function
    while the runtime is enabled, are bound without any check of the types:
    prepare succeeds once the base class went through, and the executable is
    built for the declared return type. *)
Theorem prepare_binds_declared_type (state : RuntimeState)
    (context context' : VExprContext) (d : FnCallFields) (children children' : list VExpr)
    (Hkind : binary_type (_fn d) = RPC
             \/ (binary_type (_fn d) = JAVA_UDF /\ enable_java_support = true
                 /\ is_udtf_function (_fn d) = false))
    (Hfresh : _prepare_finished d = false)
    (Hbase : VExpr_prepare state context children = (OK, (children', context'))) :
  let r := prepare state context d children in
  fst r = OK
  /\ _function (node_after r)
     = Some (match binary_type (_fn d) with
             | RPC => FunctionRPC_create (_fn d) (build_argument_template children')
                        (_data_type d)
             | _ => JavaFunctionCall_create (_fn d) (build_argument_template children')
                      (_data_type d)
             end)
  /\ (forall f, _function (node_after r) = Some f ->
                factory_return_type f = Some (_data_type d)).
Proof.
  intros r. subst r.
  rewrite (prepare_fresh _ _ _ _ _ _ Hfresh Hbase).
  cbv zeta. unfold bind_function. cbn [_fn _data_type set_expr_name].
  destruct Hkind as [Hrpc | (Hjava & Hconfig & Hudtf)].
  - rewrite Hrpc. cbn [_function set_function].
    destruct (register_function_context _ _ _ _) as [context2 index].
    unfold node_after. cbn. repeat split. intros f [= <-]. reflexivity.
  - rewrite Hjava, Hconfig, Hudtf. cbn [_function set_function].
    destruct (register_function_context _ _ _ _) as [context2 index].
    unfold node_after. cbn. repeat split. intros f [= <-]. reflexivity.
Qed.

(** X9: on a node of any kind but remote, foreign-runtime and state-merge,
    prepare binds what the registry finds under the function name, the
    argument template, the return type and the two flags of the runtime
    state. *)
Theorem prepare_native_hit (state : RuntimeState) (context context' : VExprContext)
    (d : FnCallFields) (children children' : list VExpr) (f : NativeFunction)
    (Hrpc : binary_type (_fn d) <> RPC)
    (Hjava : binary_type (_fn d) <> JAVA_UDF)
    (Hagg : binary_type (_fn d) <> AGG_STATE)
    (Hfresh : _prepare_finished d = false)
    (Hbase : VExpr_prepare state context children = (OK, (children', context')))
    (Hhit : get_function (function_name (name (_fn d)))
              (build_argument_template children') (_data_type d)
              (enable_decimal256 state) (be_exec_version state) = Some f) :
  let r := prepare state context d children in
  fst r = OK
  /\ _function (node_after r) = Some (SimpleFunction f)
  /\ _prepare_finished (node_after r) = true.
Proof.
  intros r. subst r.
  rewrite (prepare_fresh _ _ _ _ _ _ Hfresh Hbase).
  cbv zeta. unfold bind_function. cbn [_fn _data_type set_expr_name].
  destruct (binary_type (_fn d)); try contradiction;
    rewrite Hhit; cbn [option_map _function set_function];
    destruct (register_function_context _ _ _ _) as [context2 index];
    unfold node_after; cbn; auto.
Qed.

(** X10: a state-merge node whose name ends with _state and whose return
    type is the non-nullable aggregate-state type is bound: the executable
    takes the children's types in order, the return type and the aggregate
    function nested in it. *)
Theorem prepare_agg_state_binds (state : RuntimeState) (context context' : VExprContext)
    (d : FnCallFields) (children children' : list VExpr) (prefix : string)
    (Hkind : binary_type (_fn d) = AGG_STATE)
    (Hname : function_name (name (_fn d)) = (prefix ++ "_state")%string)
    (Hnull : is_nullable (_data_type d) = false)
    (Hprim : get_primitive_type (_data_type d) = TYPE_AGG_STATE)
    (Hfresh : _prepare_finished d = false)
    (Hbase : VExpr_prepare state context children = (OK, (children', context'))) :
  let r := prepare state context d children in
  fst r = OK
  /\ _function (node_after r)
     = Some (FunctionAggState_create (map data_type children') (_data_type d)
               (get_nested_function (_data_type d))).
Proof.
  intros r. subst r.
  assert (Hmatch : match_suffix (function_name (name (_fn d))) AGG_STATE_SUFFIX = true)
    by (apply match_suffix_iff; exists prefix; exact Hname).
  rewrite (prepare_fresh _ _ _ _ _ _ Hfresh Hbase).
  cbv zeta. unfold bind_function. cbn [_fn _data_type set_expr_name].
  rewrite Hkind, Hmatch, Hnull, Hprim. cbn [PrimitiveType_eqb negb _function set_function].
  destruct (register_function_context _ _ _ _) as [context2 index].
  unfold node_after. cbn. rewrite build_argument_template_types. auto.
Qed.

(** X11: once the base class went through, prepare renames the node before
    it binds anything, so the new name is there whether the binding succeeds
    or fails. *)
Theorem prepare_names_node (state : RuntimeState) (context context' : VExprContext)
    (d : FnCallFields) (children children' : list VExpr)
    (Hfresh : _prepare_finished d = false)
    (Hbase : VExpr_prepare state context children = (OK, (children', context'))) :
  _expr_name (node_after (prepare state context d children))
  = ("VectorizedFnCall[" ++ function_name (name (_fn d))
     ++ "](arguments=" ++ get_child_names children'
     ++ ",return=" ++ get_name (_data_type d) ++ ")")%string.
Proof.
  rewrite (prepare_fresh _ _ _ _ _ _ Hfresh Hbase). cbv zeta.
  match goal with
  | |- context [bind_function state ?d1 ?t] =>
      destruct (bind_function state d1 t) as [err | d2] eqn:Hbind
  end.
  - reflexivity.
  - pose proof (bind_function_assigns _ _ _ _ Hbind) as Hd2.
    destruct (_function d2) as [f |] eqn:Hf.
    + destruct (register_function_context _ _ _ _) as [context2 index].
      unfold node_after. cbn. rewrite Hd2. reflexivity.
    + unfold node_after. cbn. rewrite Hd2. reflexivity.
Qed.

(** ** execute: the paths through _do_execute *)

Lemma must_in_slow_path_inactive (children : list VExpr) :
  debug_point_active "VectorizedFnCall.must_in_slow_path" = false ->
  must_in_slow_path children = Proceed.
Proof. intros H. unfold must_in_slow_path. now rewrite H. Qed.

(** The loop over a list of children in two parts. *)
Lemma execute_children_app (f : VExpr -> ExecState -> Z -> option (Status * ExecState * Z))
    (cs1 cs2 : list VExpr) (i : nat) (s : ExecState) (args : ColumnNumbers) :
  execute_children f (cs1 ++ cs2) i s args
  = match execute_children f cs1 i s args with
    | Some (OK, s', args') => execute_children f cs2 (i + List.length cs1) s' args'
    | other => other
    end.
Proof.
  revert i s args.
  induction cs1 as [| c rest IH]; intros i s args; cbn [app execute_children List.length].
  - now rewrite Nat.add_0_r.
  - destruct (f c (log_call (ChildExecute c) s) (-1)%Z) as [[[st s'] id] |]; [| reflexivity].
    destruct st; [| reflexivity].
    rewrite IH. now rewrite Nat.add_succ_r.
Qed.

(** What [_do_execute] does once the children went through. *)
Lemma _do_execute_after_children (d : FnCallFields) (children : list VExpr)
    (s s2 : ExecState) (id : Z) (args args2 : ColumnNumbers) :
  is_const_and_have_executed d = false ->
  fst (fast_execute d children (st_context s) (st_block s) id) = false ->
  must_in_slow_path children = Proceed ->
  execute_children execute children 0 (after_fast_execute d children s id)
    (resize (List.length children) args) = Some (OK, s2, args2) ->
  _do_execute d children s id args
  = let id1 := snd (snd (fast_execute d children (st_context s) (st_block s) id)) in
    match check_constant d children (st_block s2) args2 with
    | Error c m => Some (Error c m, s2, id1, args2)
    | OK =>
        match _function d with
        | None => None
        | Some f =>
            let n := columns (st_block s2) in
            let block3 :=
              insert (st_block s2)
                {| column := None; type := _data_type d; col_name := _expr_name d |} in
            let r := function_execute f (st_context s2) (_fn_context_index d) block3
                       args2 n (block_rows block3) false in
            let s4 := {| st_context := fst (snd r); st_block := snd (snd r);
                         st_calls := FunctionExecute f args2 n :: st_calls s2 |} in
            match fst r with
            | Error c m => Some (Error c m, s4, id1, args2)
            | OK =>
                match check_type_and_column (snd (snd r)) with
                | Error c m => Some (Error c m, s4, to_int n, args2)
                | OK => Some (OK, s4, to_int n, args2)
                end
            end
        end
    end.
Proof.
  intros Hconst Hfast Hdebug.
  unfold _do_execute, _do_execute_with, after_fast_execute. rewrite Hconst.
  destruct (fast_execute d children (st_context s) (st_block s) id)
    as [fast [[context1 block1] id1]].
  cbn in Hfast. subst fast. cbn [fst snd]. rewrite Hdebug.
  intros ->. cbv zeta.
  destruct (check_constant d children (st_block s2) args2); [| reflexivity].
  destruct (_function d) as [f |]; [| reflexivity].
  destruct (function_execute _ _ _ _ _ _ _ _) as [st [context4 block4]].
  reflexivity.
Qed.

(** X12: when the fast path answers, [_do_execute] returns OK with the block,
    the context and the index the fast path left: no child and no function
    is called and the argument buffer is not touched. *)
Theorem execute_fast_path (d : FnCallFields) (children : list VExpr) (s : ExecState)
    (id : Z) (args : ColumnNumbers)
    (Hconst : is_const_and_have_executed d = false)
    (Hfast : fst (fast_execute d children (st_context s) (st_block s) id) = true) :
  _do_execute d children s id args
  = Some (OK, after_fast_execute d children s id,
          snd (snd (fast_execute d children (st_context s) (st_block s) id)), args)
  /\ st_calls (after_fast_execute d children s id) = st_calls s.
Proof.
  unfold _do_execute, _do_execute_with, after_fast_execute. rewrite Hconst.
  destruct (fast_execute d children (st_context s) (st_block s) id)
    as [fast [[context1 block1] id1]].
  cbn in Hfast. subst fast. split; reflexivity.
Qed.

(** X13: the first child that fails ends the call: the status is the child's,
    the state is as that child left it, so the later children are not
    executed, no result column is appended and the bound function is not
    called; the out-parameter keeps what the fast path left in it. *)
Theorem execute_stops_at_failing_child (d : FnCallFields)
    (before after : list VExpr) (child : VExpr)
    (s s2 s3 : ExecState) (id id3 : Z) (args args2 : ColumnNumbers)
    (code : ErrorCode) (msg : string)
    (Hconst : is_const_and_have_executed d = false)
    (Hfast : fst (fast_execute d (before ++ child :: after)
                    (st_context s) (st_block s) id) = false)
    (Hdebug : must_in_slow_path (before ++ child :: after) = Proceed)
    (Hbefore : execute_children execute before 0
                 (after_fast_execute d (before ++ child :: after) s id)
                 (resize (List.length (before ++ child :: after)) args)
               = Some (OK, s2, args2))
    (Hchild : execute child (log_call (ChildExecute child) s2) (-1)%Z
              = Some (Error code msg, s3, id3)) :
  _do_execute d (before ++ child :: after) s id args
  = Some (Error code msg, s3,
          snd (snd (fast_execute d (before ++ child :: after)
                      (st_context s) (st_block s) id)),
          args2).
Proof.
  unfold _do_execute, _do_execute_with. rewrite Hconst.
  unfold after_fast_execute in Hbefore.
  destruct (fast_execute d (before ++ child :: after) (st_context s) (st_block s) id)
    as [fast [[context1 block1] id1]].
  cbn in Hfast. subst fast. cbn [fst snd] in *. rewrite Hdebug.
  rewrite execute_children_app, Hbefore.
  cbn [execute_children]. rewrite Hchild. reflexivity.
Qed.

(** X14: when the check of the argument columns' constness fails, the call
    returns that status with the block as the children left it: the result
    column is not appended and the bound function is not called. *)
Theorem execute_check_constant_fails (d : FnCallFields) (children : list VExpr)
    (s s2 : ExecState) (id : Z) (args args2 : ColumnNumbers)
    (code : ErrorCode) (msg : string)
    (Hconst : is_const_and_have_executed d = false)
    (Hfast : fst (fast_execute d children (st_context s) (st_block s) id) = false)
    (Hdebug : must_in_slow_path children = Proceed)
    (Hchildren : execute_children execute children 0 (after_fast_execute d children s id)
                   (resize (List.length children) args) = Some (OK, s2, args2))
    (Hcheck : check_constant d children (st_block s2) args2 = Error code msg) :
  _do_execute d children s id args
  = Some (Error code msg, s2,
          snd (snd (fast_execute d children (st_context s) (st_block s) id)), args2).
Proof.
  rewrite (_do_execute_after_children _ _ _ _ _ _ _ Hconst Hfast Hdebug Hchildren).
  cbv zeta. now rewrite Hcheck.
Qed.

(** X15: a failure of the bound function is returned as it is; the block is
    the one the function left, result column included, and the out-parameter
    is not written. *)
Theorem execute_function_fails (d : FnCallFields) (children : list VExpr)
    (s s2 : ExecState) (id : Z) (args args2 : ColumnNumbers) (f : FunctionBasePtr)
    (code : ErrorCode) (msg : string) (context4 : VExprContext) (block4 : Block)
    (Hconst : is_const_and_have_executed d = false)
    (Hfast : fst (fast_execute d children (st_context s) (st_block s) id) = false)
    (Hdebug : must_in_slow_path children = Proceed)
    (Hchildren : execute_children execute children 0 (after_fast_execute d children s id)
                   (resize (List.length children) args) = Some (OK, s2, args2))
    (Hcheck : check_constant d children (st_block s2) args2 = OK)
    (Hbound : _function d = Some f)
    (Hfn : function_execute f (st_context s2) (_fn_context_index d)
             (st_block s2 ++ [ {| column := None; type := _data_type d;
                                  col_name := _expr_name d |} ])
             args2 (columns (st_block s2))
             (block_rows (st_block s2 ++ [ {| column := None; type := _data_type d;
                                              col_name := _expr_name d |} ]))
             false
           = (Error code msg, (context4, block4))) :
  _do_execute d children s id args
  = Some (Error code msg,
          {| st_context := context4; st_block := block4;
             st_calls := FunctionExecute f args2 (columns (st_block s2)) :: st_calls s2 |},
          snd (snd (fast_execute d children (st_context s) (st_block s) id)), args2).
Proof.
  rewrite (_do_execute_after_children _ _ _ _ _ _ _ Hconst Hfast Hdebug Hchildren).
  cbv zeta. rewrite Hcheck, Hbound. unfold insert. rewrite Hfn. reflexivity.
Qed.

(** X16: when the function succeeds but the block's check of types and
    columns fails, the call returns that status, and the out-parameter
    already holds the index of the result column. *)
Theorem execute_type_check_fails (d : FnCallFields) (children : list VExpr)
    (s s2 : ExecState) (id : Z) (args args2 : ColumnNumbers) (f : FunctionBasePtr)
    (code : ErrorCode) (msg : string) (context4 : VExprContext) (block4 : Block)
    (Hconst : is_const_and_have_executed d = false)
    (Hfast : fst (fast_execute d children (st_context s) (st_block s) id) = false)
    (Hdebug : must_in_slow_path children = Proceed)
    (Hchildren : execute_children execute children 0 (after_fast_execute d children s id)
                   (resize (List.length children) args) = Some (OK, s2, args2))
    (Hcheck : check_constant d children (st_block s2) args2 = OK)
    (Hbound : _function d = Some f)
    (Hfn : function_execute f (st_context s2) (_fn_context_index d)
             (st_block s2 ++ [ {| column := None; type := _data_type d;
                                  col_name := _expr_name d |} ])
             args2 (columns (st_block s2))
             (block_rows (st_block s2 ++ [ {| column := None; type := _data_type d;
                                              col_name := _expr_name d |} ]))
             false
           = (OK, (context4, block4)))
    (Htypes : check_type_and_column block4 = Error code msg) :
  _do_execute d children s id args
  = Some (Error code msg,
          {| st_context := context4; st_block := block4;
             st_calls := FunctionExecute f args2 (columns (st_block s2)) :: st_calls s2 |},
          to_int (columns (st_block s2)), args2).
Proof.
  rewrite (_do_execute_after_children _ _ _ _ _ _ _ Hconst Hfast Hdebug Hchildren).
  cbv zeta. rewrite Hcheck, Hbound. unfold insert. rewrite Hfn. cbn [fst snd].
  now rewrite Htypes.
Qed.

(** ** execute: the argument buffer *)

Lemma assign_length (i : nat) (v : Z) (args : ColumnNumbers) :
  List.length (assign i v args) = List.length args.
Proof.
  revert i. induction args as [| h t IH]; intros [| i]; cbn; auto.
Qed.

Lemma firstn_assign (i : nat) (v : Z) (args : ColumnNumbers) :
  (i < List.length args)%nat ->
  firstn (S i) (assign i v args) = firstn i args ++ [v].
Proof.
  revert i. induction args as [| h t IH]; intros [| i] Hi; cbn in *; try lia.
  - reflexivity.
  - f_equal. apply IH. lia.
Qed.

Lemma resize_length (n : nat) (args : ColumnNumbers) :
  List.length (resize n args) = n.
Proof.
  unfold resize. rewrite length_app, length_firstn, repeat_length. lia.
Qed.

Lemma execute_children_buffers
    (f : VExpr -> ExecState -> Z -> option (Status * ExecState * Z))
    (cs : list VExpr) :
  forall (i : nat) (s : ExecState) (a1 a2 : ColumnNumbers),
    List.length a1 = List.length a2 ->
    firstn i a1 = firstn i a2 ->
    (i + List.length cs)%nat = List.length a1 ->
    same_outcome (execute_children f cs i s a1) (execute_children f cs i s a2).
Proof.
  induction cs as [| c rest IH]; intros i s a1 a2 Hlen Hfirst Htotal;
    cbn [execute_children List.length] in *.
  - rewrite Nat.add_0_r in Htotal. subst i.
    rewrite firstn_all in Hfirst. rewrite Hlen, firstn_all in Hfirst.
    cbn. auto.
  - destruct (f c (log_call (ChildExecute c) s) (-1)%Z) as [[[st s'] id] |];
      [| exact I].
    destruct st; [| cbn; auto].
    apply IH.
    + now rewrite !assign_length.
    + rewrite !firstn_assign by lia. now rewrite Hfirst.
    + rewrite assign_length. lia.
Qed.

(** X17: [execute_runtime_filter] on any buffer, whatever it holds and
    however long it is, returns the status, the state and the index that
    [execute] returns with its fresh buffer. *)
Theorem execute_runtime_filter_any_buffer (d : FnCallFields) (children : list VExpr)
    (s : ExecState) (id : Z) (args : ColumnNumbers) :
  drop_args (execute_runtime_filter d children s id args)
  = execute (FnCall d children) s id.
Proof.
  cbn [execute].
  unfold execute_runtime_filter, _do_execute, _do_execute_with.
  destruct (is_const_and_have_executed d).
  { destruct (get_result_from_const d (st_block s) (_expr_name d)) as [[[st b] i] |];
      reflexivity. }
  destruct (fast_execute d children (st_context s) (st_block s) id)
    as [fast [[context1 block1] id1]].
  destruct fast; [reflexivity |].
  destruct (must_in_slow_path children); try reflexivity.
  match goal with
  | |- context [execute_children execute children 0 ?s1 (resize _ args)] =>
      pose proof (execute_children_buffers execute children 0 s1
                    (resize (List.length children) args)
                    (resize (List.length children) []))
        as Hsame
  end.
  rewrite !resize_length in Hsame.
  specialize (Hsame eq_refl eq_refl eq_refl).
  destruct (execute_children execute children 0 _ (resize (List.length children) args))
    as [[[st1 s1] a1] |];
    destruct (execute_children execute children 0 _ (resize (List.length children) []))
      as [[[st2 s2] a2] |];
    cbn in Hsame; try contradiction; try reflexivity.
  - destruct st1, st2; try contradiction.
    + destruct Hsame as [-> ->].
      destruct (check_constant d children (st_block s2) a2); [| reflexivity].
      destruct (_function d) as [f |]; [| reflexivity].
      destruct (function_execute _ _ _ _ _ _ _ _) as [st [context4 block4]].
      destruct st; [| reflexivity].
      destruct (check_type_and_column block4); reflexivity.
    + destruct Hsame as (-> & -> & ->). reflexivity.
  - destruct st1; contradiction.
Qed.

Lemma execute_children_indices
    (f : VExpr -> ExecState -> Z -> option (Status * ExecState * Z))
    (cs : list VExpr) :
  forall (i : nat) (s s' : ExecState) (a a' : ColumnNumbers),
    (i + List.length cs)%nat = List.length a ->
    Forall (fun v => (0 <= v < 4294967296)%Z) (firstn i a) ->
    execute_children f cs i s a = Some (OK, s', a') ->
    List.length a' = List.length a
    /\ Forall (fun v => (0 <= v < 4294967296)%Z) a'.
Proof.
  induction cs as [| c rest IH]; intros i s s' a a' Htotal Hrange;
    cbn [execute_children List.length] in *.
  - intros [= <- <-]. rewrite Nat.add_0_r in Htotal. subst i.
    rewrite firstn_all in Hrange. auto.
  - destruct (f c (log_call (ChildExecute c) s) (-1)%Z) as [[[st s1] id] |];
      [| discriminate].
    destruct st; [| discriminate].
    intros Hrest.
    apply IH in Hrest.
    + rewrite assign_length in Hrest. exact Hrest.
    + rewrite assign_length. lia.
    + rewrite firstn_assign by lia.
      apply Forall_app. split; [exact Hrange |].
      constructor; [| constructor].
      unfold to_uint32. apply Z.mod_pos_bound. lia.
Qed.

(** X18: after a successful call on the general path the buffer holds one
    index per child, each within the range of uint32_t, whatever it held
    before. *)
Theorem execute_fills_buffer (d : FnCallFields) (children : list VExpr)
    (s s' : ExecState) (id id' : Z) (args args' : ColumnNumbers)
    (Hconst : is_const_and_have_executed d = false)
    (Hfast : fst (fast_execute d children (st_context s) (st_block s) id) = false)
    (Hexec : execute_runtime_filter d children s id args = Some (OK, s', id', args')) :
  List.length args' = List.length children
  /\ Forall (fun v => (0 <= v < 4294967296)%Z) args'.
Proof.
  unfold execute_runtime_filter in Hexec.
  destruct (_do_execute_general _ _ _ _ _ _ _ _ Hconst Hfast Hexec)
    as (s2 & f & context4 & Hchildren & _).
  apply execute_children_indices in Hchildren.
  - rewrite resize_length in Hchildren. exact Hchildren.
  - now rewrite resize_length.
  - constructor.
Qed.

(** ** execute: the debug point *)

Lemma split_nonempty (sep : ascii) (s : string) : split sep s <> [].
Proof.
  destruct s as [| c rest]; cbn; [discriminate |].
  destruct (Ascii.eqb c sep); [discriminate |].
  destruct (split sep rest); discriminate.
Qed.

Lemma concat_cons_char (sep : string) (c : ascii) (h : string) (t : list string) :
  String.concat sep (String c h :: t) = String c (String.concat sep (h :: t)).
Proof. destruct t; reflexivity. Qed.

(** X19: the pieces [split] cuts a string into contain no separator, and
    joined with the separator they give the string back. *)
Theorem split_concat (sep : ascii) (s : string) :
  String.concat (String sep EmptyString) (split sep s) = s
  /\ Forall (fun piece => free_of sep piece = true) (split sep s).
Proof.
  induction s as [| c rest [IHc IHf]]; cbn [split].
  - split; [reflexivity | repeat constructor].
  - destruct (Ascii.eqb c sep) eqn:Hc.
    + apply Ascii.eqb_eq in Hc. subst c. split.
      * pose proof (split_nonempty sep rest) as Hne.
        destruct (split sep rest) as [| h t]; [contradiction |].
        cbn [String.concat]. cbn. now rewrite <- IHc.
      * constructor; [reflexivity | exact IHf].
    + pose proof (split_nonempty sep rest) as Hne.
      destruct (split sep rest) as [| h t]; [contradiction |].
      split.
      * rewrite concat_cons_char. now rewrite IHc.
      * inversion IHf; subst.
        constructor; [cbn; rewrite Hc; assumption | assumption].
Qed.

(** X20: with the debug point VectorizedFnCall.must_in_slow_path active and
    a slot reference as first child, the general path goes on exactly when
    the child's name is one of the comma-separated names of the parameter;
    otherwise [_do_execute] fails with the internal error that names the
    column, before any child is executed or the buffer resized. *)
Theorem execute_must_in_slow_path (d : FnCallFields) (child0 : VExpr) (rest : list VExpr)
    (s : ExecState) (id : Z) (args : ColumnNumbers)
    (Hconst : is_const_and_have_executed d = false)
    (Hfast : fst (fast_execute d (child0 :: rest) (st_context s) (st_block s) id) = false)
    (Hactive : debug_point_active "VectorizedFnCall.must_in_slow_path" = true)
    (Hslot : is_slot_ref child0 = true) :
  let names :=
    split ","%char
      (get_debug_param_or_default "VectorizedFnCall.must_in_slow_path" "column_name" "") in
  (must_in_slow_path (child0 :: rest) = Proceed <-> In (expr_name child0) names)
  /\ (~ In (expr_name child0) names ->
      _do_execute d (child0 :: rest) s id args
      = Some (Error INTERNAL_ERROR
                ("column " ++ expr_name child0
                 ++ " should in slow path while VectorizedFnCall::execute."),
              after_fast_execute d (child0 :: rest) s id,
              snd (snd (fast_execute d (child0 :: rest) (st_context s) (st_block s) id)),
              args)).
Proof.
  intros names.
  assert (Hin : existsb (String.eqb (expr_name child0)) names = true
                <-> In (expr_name child0) names).
  { rewrite existsb_exists. split.
    - intros (x & Hx & Heq). apply String.eqb_eq in Heq. now subst x.
    - intros Hx. exists (expr_name child0). split; [exact Hx | apply String.eqb_refl]. }
  assert (Hcheck : must_in_slow_path (child0 :: rest)
                   = if existsb (String.eqb (expr_name child0)) names then Proceed
                     else Forced (Error INTERNAL_ERROR
                                    ("column " ++ expr_name child0
                                     ++ " should in slow path while VectorizedFnCall::execute."))).
  { unfold must_in_slow_path. rewrite Hactive, Hslot. reflexivity. }
  split.
  - rewrite Hcheck, <- Hin.
    destruct (existsb _ names); split; congruence.
  - intros Hout.
    assert (Hfalse : existsb (String.eqb (expr_name child0)) names = false).
    { apply not_true_is_false. intros H. apply Hout, Hin, H. }
    rewrite Hfalse in Hcheck.
    unfold _do_execute, _do_execute_with, after_fast_execute. rewrite Hconst.
    destruct (fast_execute d (child0 :: rest) (st_context s) (st_block s) id)
      as [fast [[context1 block1] id1]].
    cbn in Hfast. subst fast. rewrite Hcheck. reflexivity.
Qed.

(** ** estimate_memory on trees of call nodes *)

Lemma children_estimate_linear (children : list VExpr) (rows y : N) :
  Forall (fun c => estimate_memory c rows = to_size_t (rows * row_size c)) children ->
  to_size_t (children_estimate children rows + y)
  = to_size_t (rows * fold_right (fun child acc => row_size child + acc)%N 0%N children
               + y).
Proof.
  intros H. revert y.
  induction H as [| c rest Hc _ IH]; intros y; cbn [children_estimate fold_right].
  - now rewrite N.mul_0_r.
  - fold (children_estimate rest rows).
    rewrite Hc.
    replace (to_size_t (rows * row_size c) + children_estimate rest rows + y)%N
      with (children_estimate rest rows + (to_size_t (rows * row_size c) + y))%N by lia.
    rewrite IH.
    match goal with
    | |- to_size_t (?a + (to_size_t ?x + y)) = _ =>
        replace (a + (to_size_t x + y))%N with (to_size_t x + (a + y))%N by lia
    end.
    rewrite to_size_t_add_l. f_equal. lia.
Qed.

(** X21: on a tree made of call nodes only the estimate is linear in the row
    count modulo 2^64: the row count times the sum of the per-value sizes of
    the nodes that are not below a materialized constant. *)
Theorem estimate_memory_linear (e : VExpr) (rows : N)
    (Hcalls : Forall_other (fun _ => False) e) :
  estimate_memory e rows = to_size_t (rows * row_size e).
Proof.
  revert Hcalls.
  induction e as [d cs IH | o] using VExpr_nested_ind; intros Hcalls; [| contradiction].
  cbn [row_size].
  destruct (is_const_and_have_executed d) eqn:Hconst.
  - cbn [estimate_memory]. rewrite Hconst. now rewrite N.mul_0_r.
  - rewrite (estimate_memory_FnCall _ _ _ Hconst).
    rewrite children_estimate_linear.
    + f_equal. lia.
    + cbn [Forall_other] in Hcalls.
      induction IH as [| c rest Hc _ IHrest]; constructor.
      * apply Hc, Hcalls.
      * apply IHrest, Hcalls.
Qed.

(** ** open *)

Lemma open_children_app (f : VExpr -> VExprContext -> Status * (VExpr * VExprContext))
    (before after : list VExpr) (context : VExprContext) :
  open_children f (before ++ after) context
  = match open_children f before context with
    | (OK, (before', context1)) =>
        let '(st, (after', context2)) := open_children f after context1 in
        (st, (before' ++ after', context2))
    | (Error c m, (before', context1)) => (Error c m, (before' ++ after, context1))
    end.
Proof.
  revert context.
  induction before as [| c rest IH]; intros context; cbn [app open_children].
  - destruct (open_children f after context) as [st [after' context2]].
    destruct st; reflexivity.
  - destruct (f c context) as [st [c' context']].
    destruct st; [| reflexivity].
    rewrite IH.
    destruct (open_children f rest context') as [st [rest' context1]].
    destruct st; [| reflexivity].
    destruct (open_children f after context1) as [st [after' context2]].
    reflexivity.
Qed.

Lemma open_children_opened (state : RuntimeState) (scope : FunctionStateScope)
    (children : list VExpr) :
  Forall (fun c => forall context c' context',
            open state scope c context = (OK, (c', context')) -> all_opened c')
         children ->
  forall context children' context',
    open_children (open state scope) children context = (OK, (children', context')) ->
    (fix all (l : list VExpr) : Prop :=
       match l with
       | [] => True
       | c :: t => all_opened c /\ all t
       end) children'.
Proof.
  induction 1 as [| c rest Hc _ IH]; intros context children' context';
    cbn [open_children].
  - intros [= <- _]. exact I.
  - destruct (open state scope c context) as [st [c' context1]] eqn:Hopen.
    destruct st; [| discriminate].
    destruct (open_children (open state scope) rest context1)
      as [st [rest' context2]] eqn:Hrest.
    intros [= -> <- _].
    split; [exact (Hc _ _ _ Hopen) | exact (IH _ _ _ Hrest)].
Qed.

(** X22: a successful [open] leaves every call node of the tree marked as
    opened. *)
Theorem open_marks_every_call_node (state : RuntimeState) (scope : FunctionStateScope)
    (e e' : VExpr) (context context' : VExprContext)
    (Hopen : open state scope e context = (OK, (e', context'))) :
  all_opened e'.
Proof.
  revert context e' context' Hopen.
  induction e as [d cs IH | o] using VExpr_nested_ind; intros context e' context'.
  - cbn [open].
    destruct (open_children (open state scope) cs context)
      as [st [cs' context1]] eqn:Hchildren.
    destruct st; [| discriminate].
    pose proof (open_children_opened state scope cs IH _ _ _ Hchildren) as Hall.
    destruct (init_function_context state context1 scope d (_function d))
      as [st context2].
    destruct st; [| discriminate].
    destruct scope.
    + destruct (get_const_col d cs' context2) as [st [d' context3]].
      destruct st; [| discriminate].
      intros [= <- _]. split; [reflexivity | exact Hall].
    + intros [= <- _]. split; [reflexivity | exact Hall].
  - cbn [open].
    destruct (other_open o state context scope) as [st [o' context1]].
    intros [= _ <- _]. exact I.
Qed.

(** X23: the first child whose [open] fails ends the call with that status:
    the children after it are not opened, the function context is not
    initialized and the node itself is left as it was, not marked opened. *)
Theorem open_stops_at_failing_child (state : RuntimeState) (scope : FunctionStateScope)
    (d : FnCallFields) (before before' after : list VExpr) (child child' : VExpr)
    (context context1 context2 : VExprContext) (code : ErrorCode) (msg : string)
    (Hbefore : open_children (open state scope) before context = (OK, (before', context1)))
    (Hchild : open state scope child context1 = (Error code msg, (child', context2))) :
  open state scope (FnCall d (before ++ child :: after)) context
  = (Error code msg, (FnCall d (before' ++ child' :: after), context2)).
Proof.
  cbn [open]. rewrite open_children_app, Hbefore.
  cbn [open_children]. rewrite Hchild. reflexivity.
Qed.

(** X24: in the thread-local scope [open] changes nothing of the node but
    the opened mark, and that only on success: no constant column is
    materialized, so the node takes the same path through [execute] as
    before. *)
Theorem open_thread_local_keeps_node (state : RuntimeState)
    (d : FnCallFields) (children : list VExpr) (context : VExprContext) :
  exists children',
    fst (snd (open state THREAD_LOCAL (FnCall d children) context))
    = FnCall (if ok (fst (open state THREAD_LOCAL (FnCall d children) context))
              then set_open_finished d else d)
             children'
    /\ List.length children' = List.length children
    /\ _constant_col (set_open_finished d) = _constant_col d
    /\ is_const_and_have_executed (set_open_finished d) = is_const_and_have_executed d.
Proof.
  cbn [open].
  assert (Hlen : forall cs ctx,
             List.length (fst (snd (open_children (open state THREAD_LOCAL) cs ctx)))
             = List.length cs).
  { induction cs as [| c rest IH]; intros ctx; cbn [open_children]; [reflexivity |].
    destruct (open state THREAD_LOCAL c ctx) as [st [c' ctx1]].
    destruct st; [| reflexivity].
    specialize (IH ctx1).
    destruct (open_children (open state THREAD_LOCAL) rest ctx1) as [st [rest' ctx2]].
    cbn in *. now rewrite IH. }
  specialize (Hlen children context).
  destruct (open_children (open state THREAD_LOCAL) children context)
    as [st [children' context1]].
  exists children'. cbn in Hlen.
  destruct st.
  - destruct (init_function_context state context1 THREAD_LOCAL d (_function d))
      as [st context2].
    destruct st; cbn; auto.
  - cbn. auto.
Qed.

(** ** debug_string *)

Lemma string_app_assoc (a b c : string) : ((a ++ b) ++ c = a ++ (b ++ c))%string.
Proof. induction a as [| x a IH]; cbn; [reflexivity | now rewrite IH]. Qed.

Lemma string_app_nil_r (a : string) : (a ++ "" = a)%string.
Proof. induction a as [| x a IH]; cbn; [reflexivity | now rewrite IH]. Qed.

Lemma concat_cons_sep (sep x : string) (l : list string) :
  String.concat sep (x :: l)
  = (x ++ fold_right (fun y acc => sep ++ y ++ acc) "" l)%string.
Proof.
  revert x. induction l as [| y l IH]; intros x.
  - cbn. now rewrite string_app_nil_r.
  - change (String.concat sep (x :: y :: l))
      with (x ++ sep ++ String.concat sep (y :: l))%string.
    now rewrite IH.
Qed.

Lemma debug_string_children_rest (f : VExpr -> string) (children : list VExpr)
    (out : string) :
  debug_string_children f children false out
  = (out ++ fold_right (fun y acc => "," ++ y ++ acc) ""
              (map (fun c => newline ++ f c) children))%string.
Proof.
  revert out.
  induction children as [| c rest IH]; intros out;
    cbn [debug_string_children map fold_right].
  - now rewrite string_app_nil_r.
  - rewrite IH. now rewrite !string_app_assoc.
Qed.

(** X25: [debug_string] of a call node is the label VectorizedFn[name]
    followed, between braces, by the children's own strings, each on a new
    line and separated by commas. *)
Theorem debug_string_call_node (d : FnCallFields) (children : list VExpr) :
  debug_string (FnCall d children)
  = ("VectorizedFn[" ++ _expr_name d ++ "]{"
     ++ String.concat "," (map (fun c => newline ++ debug_string c) children)
     ++ "}")%string.
Proof.
  cbn [debug_string].
  destruct children as [| c rest]; cbn [debug_string_children map].
  - cbn [String.concat]. now rewrite !string_app_assoc.
  - rewrite debug_string_children_rest, concat_cons_sep.
    now rewrite !string_app_assoc.
Qed.

Lemma debug_string_from_rest (agg_fns : list (FnCallFields * list VExpr)) (i : nat)
    (out : string) :
  debug_string_from agg_fns (S i) out
  = (out ++ fold_right (fun y acc => " " ++ y ++ acc) ""
              (map (fun fn => debug_string (FnCall (fst fn) (snd fn))) agg_fns))%string.
Proof.
  revert i out.
  induction agg_fns as [| fn rest IH]; intros i out;
    cbn [debug_string_from map fold_right].
  - now rewrite string_app_nil_r.
  - rewrite IH. cbn [Nat.eqb]. now rewrite !string_app_assoc.
Qed.

(** X26: the static [debug_string] of a vector of call nodes is their
    strings separated by single spaces, between brackets. *)
Theorem debug_string_of_vector (agg_fns : list (FnCallFields * list VExpr)) :
  debug_string_of agg_fns
  = ("["
     ++ String.concat " " (map (fun fn => debug_string (FnCall (fst fn) (snd fn))) agg_fns)
     ++ "]")%string.
Proof.
  unfold debug_string_of.
  destruct agg_fns as [| fn rest]; cbn [debug_string_from map].
  - reflexivity.
  - rewrite debug_string_from_rest, concat_cons_sep. cbn [Nat.eqb].
    now rewrite !string_app_assoc.
Qed.

End MoreProperties.

(** * The properties on the concrete instance *)

Import Demo.

(** The addition node equals itself and differs from a copy whose second
    child reads another slot. *)
Lemma equals_structural_witness :
  equals (FnCall add_node add_children)
         (FnCall add_node add_children) = true
  /\ equals (FnCall add_node add_children)
            (FnCall add_node
               [slot 0 "a"; slot 2 "c"]) = false.
Proof.
  destruct (equals_structural add_node add_children)
    as (Hrefl & _ & _ & _ & _ & Hchild).
  split.
  - apply Hrefl. cbn. repeat split.
  - apply (Hchild add_node _ 1%nat (slot 1 "b")
             (slot 2 "c")); reflexivity.
Defined.

(** A node bound to the native addition returning INT and an unbound remote
    node of the same name returning String are equal. *)
Lemma equals_ignores_return_type_witness :
  let d' := fresh "add" RPC false String_t in
  let d2 := set_prepared d' 3%Z "add" in
  _data_type add_node <> _data_type d2
  /\ binary_type (_fn add_node) <> binary_type (_fn d2)
  /\ _function add_node <> _function d2
  /\ equals (FnCall add_node add_children)
            (FnCall d2 add_children) = true.
Proof.
  cbv zeta.
  split; [cbn; discriminate |].
  split; [cbn; discriminate |].
  split; [cbn; discriminate |].
  apply equals_ignores_return_type.
  - reflexivity.
  - reflexivity.
  - repeat constructor.
Defined.

(** A state-merge node named sum_state declared to return INT: prepare fails
    with the error about the return type. *)
Lemma prepare_agg_state_return_type_witness :
  let r := prepare (env := env false) state 0%nat
             (fresh "sum_state" AGG_STATE false Int32) [] in
  fst r = InternalError "State function's return type must be agg_state but get INT"
  /\ _function (node_after r) = None.
Proof.
  destruct (prepare_agg_state_return_type (env := env false) state 0%nat
              (fresh "sum_state" AGG_STATE false Int32) [] eq_refl eq_refl)
    as [Hbad _].
  destruct Hbad as (_ & Hfn & _ & Hmsg).
  - right. discriminate.
  - split.
    + destruct (Hmsg [] 0%nat eq_refl) as [_ Htype]. exact (Htype eq_refl).
    + exact Hfn.
Defined.

(** A state-merge node named sum with the aggregate-state return type:
    prepare fails with the error about the suffix. *)
Lemma prepare_agg_state_suffix_witness :
  fst (prepare (env := env false) state 0%nat (fresh "sum" AGG_STATE false AggState) [])
  = InternalError "Function sum() is not endwith '_state'".
Proof.
  assert (Hsuffix : ~ exists p, "sum" = (p ++ "_state")%string).
  { intros [p Hp]. apply (f_equal String.length) in Hp.
    rewrite length_append in Hp. cbn in Hp. lia. }
  destruct (prepare_agg_state_suffix (env := env false) state 0%nat
              (fresh "sum" AGG_STATE false AggState) [] eq_refl eq_refl Hsuffix)
    as (_ & _ & _ & Hmsg).
  exact (Hmsg [] 0%nat eq_refl).
Defined.

(** A foreign-runtime node while enable_java_support is off. *)
Lemma prepare_java_disabled_witness :
  exists msg,
    fst (prepare (env := env false) state 0%nat (fresh "f" JAVA_UDF false Int32) [])
    = InternalError msg
    /\ contains "enable_java_support" msg = true.
Proof.
  destruct (prepare_java_disabled (env := env false) state 0%nat
              (fresh "f" JAVA_UDF false Int32) [] eq_refl eq_refl eq_refl)
    as (_ & _ & _ & Hmsg).
  destruct (Hmsg [] 0%nat eq_refl) as (msg & Hst & _ & Hin).
  exists msg. split; assumption.
Defined.

(** A native node named nope, which the registry does not know. *)
Lemma prepare_native_miss_witness :
  fst (prepare (env := env false) state 0%nat (fresh "nope" NATIVE false Int32)
         add_children)
  = InternalError "Could not find function nope, arg a, b return INT ".
Proof.
  refine (proj1 (prepare_native_miss (env := env false) state 0%nat 0%nat
                   (fresh "nope" NATIVE false Int32) add_children add_children
                   _ _ _ eq_refl eq_refl eq_refl));
    discriminate.
Defined.

(** A table-generating foreign-runtime node declared to return String. *)
Lemma prepare_udtf_fake_witness :
  let r := prepare (env := env true) state 0%nat
             (fresh "explode" JAVA_UDF true String_t) [] in
  fst r = OK
  /\ _function (node_after r) = Some (FunctionFake_UDTFImpl_build [] UInt8)
  /\ _data_type (node_after r) = String_t.
Proof.
  destruct (prepare_udtf_fake (env := env true) state 0%nat 0%nat
              (fresh "explode" JAVA_UDF true String_t) [] []
              eq_refl eq_refl eq_refl eq_refl eq_refl)
    as (Hok & _ & Hfn & Hty & _).
  split; [exact Hok |]. split; [exact Hfn | exact Hty].
Defined.

(** The addition of the columns 1,2,3 and 10,20,30: the result 11,22,33 is the
    third column and the index returned is 2, the number of columns the block
    held before. *)
Lemma execute_appends_result_column_witness :
  execute (env := env false) (FnCall add_node add_children) (start two_columns) (-1)%Z
  = Some (OK, add_result, 2%Z)
  /\ map column (st_block add_result)
     = [Some [1; 2; 3]%Z; Some [10; 20; 30]%Z; Some [11; 22; 33]%Z]
  /\ exists s2,
       List.length (st_block s2) = 2%nat
       /\ 2%Z = Z.of_nat (List.length (st_block s2)).
Proof.
  assert (Hexec : execute (env := env false) (FnCall add_node add_children)
                    (start two_columns) (-1)%Z
                  = Some (OK, add_result, 2%Z)) by (vm_compute; reflexivity).
  split; [exact Hexec |].
  split; [reflexivity |].
  destruct (execute_appends_result_column (env := env false) add_node add_children
              (start two_columns) add_result (-1)%Z 2%Z eq_refl eq_refl Hexec)
    as (s2 & args & f & context4 & Hchildren & _ & _ & _ & Hid).
  exists s2.
  assert (Hlen : List.length (st_block s2) = 2%nat).
  { vm_compute in Hchildren. injection Hchildren as <- _. reflexivity. }
  split; [exact Hlen |].
  apply Hid. rewrite Hlen. reflexivity.
Defined.

(** The constant node on the two-column block: its cached column 7 comes back
    as the third column, nothing is called, and a second call appends the
    same column once more. *)
Lemma execute_constant_short_circuit_witness :
  exists s1 s2 id2,
    execute (env := env false) (FnCall const_node add_children) (start two_columns) (-1)%Z
    = Some (OK, s1, 2%Z)
    /\ execute (env := env false) (FnCall const_node add_children) s1 (-1)%Z
       = Some (OK, s2, id2)
    /\ map column (st_block s2)
       = [Some [1; 2; 3]%Z; Some [10; 20; 30]%Z; Some [7%Z]; Some [7%Z]]
    /\ st_calls s2 = [].
Proof.
  destruct (execute_constant_short_circuit (env := env false) const_node add_children
              eq_refl)
    as (c & Hc & _ & Hexec & Hagain).
  injection Hc as <-.
  eexists.
  destruct (Hagain (start two_columns) (-1)%Z _ 2%Z (-1)%Z (Hexec _ _))
    as (s2 & id2 & H2 & Hblock & Hcalls & _).
  exists s2, id2.
  split; [apply Hexec |].
  split; [exact H2 |].
  split; [rewrite Hblock; reflexivity | exact Hcalls].
Defined.

(** C7 as stated fails: a call node without children whose return type has no
    maximum value size costs 512 at one row and 0 at 2^55 rows, where
    512 * 2^55 = 2^64 wraps around. *)
Lemma estimate_memory_overflow :
  let e := FnCall (fresh "f" BUILTIN false String_t) [] in
  is_const_and_have_executed (fresh "f" BUILTIN false String_t) = false
  /\ (1 <= 36028797018963968)%N
  /\ estimate_memory e 1 = 512%N
  /\ estimate_memory e 36028797018963968 = 0%N
  /\ estimate_memory e 36028797018963968 <> (36028797018963968 * 512)%N
  /\ ~ (estimate_memory e 1 <= estimate_memory e 36028797018963968)%N.
Proof.
  cbv zeta.
  split; [reflexivity |].
  split; [discriminate |].
  split; [reflexivity |].
  split; [reflexivity |].
  split; [discriminate |].
  intros H. vm_compute in H. apply H. reflexivity.
Defined.

(** The addition node costs four bytes a row: 12 at 3 rows, 16384 at 4096. *)
Lemma estimate_memory_policy_witness :
  estimate_memory (FnCall add_node add_children) 3 = 12%N
  /\ (estimate_memory (FnCall add_node add_children) 3
      <= estimate_memory (FnCall add_node add_children) 4096)%N
  /\ estimate_memory (FnCall const_node add_children) 4096 = 0%N.
Proof.
  destruct (estimate_memory_policy add_node add_children)
    as (_ & Hsum & _ & Hmono).
  split; [rewrite (Hsum eq_refl); reflexivity |].
  split.
  - apply Hmono.
    + discriminate.
    + repeat constructor; discriminate.
    + reflexivity.
  - apply (proj1 (estimate_memory_policy const_node add_children) eq_refl).
Defined.

(** * The further properties on the concrete instance *)

Import DemoLife.

Lemma demo_equals_answers (o : DemoExpr) (e : VExpr) :
  other_equals o e = equals e (Other o).
Proof.
  destruct e as [d cs | o'].
  - destruct o; reflexivity.
  - destruct o, o'; cbn; try reflexivity.
    + now rewrite Z.eqb_sym, String.eqb_sym.
    + apply Z.eqb_sym.
Qed.

Lemma demo_equals_carries (o : DemoExpr) (b c : VExpr) :
  other_equals o b = true -> equals b c = true -> other_equals o c = true.
Proof.
  destruct b as [d cs | o']; [destruct o; discriminate |].
  destruct o as [i n | v], o' as [j m | w]; cbn; try discriminate.
  - intros Hij. apply andb_true_iff in Hij. destruct Hij as [Hi Hn].
    apply Z.eqb_eq in Hi. apply String.eqb_eq in Hn. subst j m. trivial.
  - intros Hv. apply Z.eqb_eq in Hv. subst w. trivial.
Qed.

(** A slot and the addition node, compared both ways, and two slots. *)
Lemma equals_symmetric_witness :
  equals (slot 0 "a") (FnCall add_node add_children)
  = equals (FnCall add_node add_children) (slot 0 "a")
  /\ equals (slot 0 "a") (slot 1 "b") = equals (slot 1 "b") (slot 0 "a").
Proof.
  split; apply (equals_symmetric (T := Demo.types) (ops := Demo.ops) demo_equals_answers).
Defined.

(** Three copies of the addition node over the same slots. *)
Lemma equals_transitive_witness :
  equals (FnCall add_node add_children)
         (FnCall (set_prepared (fresh "add" RPC false String_t) 3%Z "add") add_children)
  = true.
Proof.
  apply (equals_transitive (T := Demo.types) (ops := Demo.ops) demo_equals_carries
           _ (FnCall const_node add_children));
    reflexivity.
Defined.

(** The nested addition and a tree of the same names with other members. *)
Lemma equals_iff_skeleton_witness :
  equals nested
         (FnCall (set_prepared (fresh "x" RPC false String_t) 3%Z "add")
            [FnCall add_node []; FnCall const_node []])
  = true
  /\ equals nested (FnCall add_node [FnCall const_node []]) = false.
Proof.
  assert (Hcalls : Forall_other (fun _ : OtherVExpr => False) nested)
    by (cbn; repeat split).
  split.
  - apply (equals_iff_skeleton nested Hcalls). reflexivity.
  - apply not_true_is_false. intros H.
    apply (equals_iff_skeleton nested Hcalls) in H. discriminate.
Defined.

(** Preparing the addition node once more changes nothing. *)
Lemma prepare_idempotent_witness :
  prepare (env := env false) state 5%nat add_node [] = (OK, (add_node, [], 5%nat)).
Proof.
  exact (prepare_idempotent (env := env false) state state 0%nat 5%nat
           (fresh "add" BUILTIN false Int32) add_children [] eq_refl).
Defined.

(** The members of the addition node after prepare. *)
Lemma prepare_success_fields_witness :
  _function_name add_node = "add"
  /\ expr_name (FnCall add_node add_children)
     = "VectorizedFnCall[add](arguments=a, b,return=INT)"
  /\ exists f, _function add_node = Some f
               /\ can_push_down_to_index add_node = Some false.
Proof.
  destruct (prepare_success_fields (env := env false) state 0%nat 0%nat
              (fresh "add" BUILTIN false Int32) add_children add_children
              eq_refl eq_refl eq_refl)
    as (_ & _ & Hname & Hexpr & _ & f & Hf & Hpush).
  split; [exact Hname |]. split; [exact Hexpr |].
  exists f. split; [exact Hf | exact Hpush].
Defined.

(** The native addition and a remote function of the same name over the
    same slots are equal once prepared. *)
Lemma equals_after_prepare_witness :
  equals (FnCall add_node add_children)
         (FnCall (node_after (prepare (env := env false) state 1%nat
                                (fresh "add" RPC false String_t) add_children))
                 add_children)
  = true.
Proof.
  apply (equals_after_prepare (env := env false) state state 0%nat 0%nat 1%nat 1%nat
           (fresh "add" BUILTIN false Int32) (fresh "add" RPC false String_t)
           add_children add_children add_children add_children
           eq_refl eq_refl eq_refl eq_refl eq_refl eq_refl).
  split; [reflexivity |]. split; [reflexivity |].
  repeat constructor.
Defined.

(** A remote node declared to return the aggregate state. *)
Lemma prepare_binds_declared_type_witness :
  _function (node_after (prepare (env := env false) state 0%nat
                           (fresh "remote" RPC false AggState) add_children))
  = Some (FunctionRPC_create (_fn (fresh "remote" RPC false AggState))
            (build_argument_template add_children) AggState).
Proof.
  exact (proj1 (proj2 (prepare_binds_declared_type (env := env false) state 0%nat 0%nat
                         (fresh "remote" RPC false AggState) add_children add_children
                         (or_introl eq_refl) eq_refl eq_refl))).
Defined.

(** The registry knows add. *)
Lemma prepare_native_hit_witness :
  _function add_node = Some (SimpleFunction "add").
Proof.
  refine (proj1 (proj2 (prepare_native_hit (env := env false) state 0%nat 0%nat
                          (fresh "add" BUILTIN false Int32) add_children add_children
                          "add" _ _ _ eq_refl eq_refl eq_refl)));
    discriminate.
Defined.

(** sum_state over two INT slots, returning the aggregate state of sum. *)
Lemma prepare_agg_state_binds_witness :
  _function (node_after (prepare (env := env false) state 0%nat
                           (fresh "sum_state" AGG_STATE false AggState) add_children))
  = Some (FunctionAggState_create [Int32; Int32] AggState (Some "sum")).
Proof.
  exact (proj2 (prepare_agg_state_binds (env := env false) state 0%nat 0%nat
                  (fresh "sum_state" AGG_STATE false AggState) add_children add_children
                  "sum" eq_refl eq_refl eq_refl eq_refl eq_refl eq_refl)).
Defined.

(** A function the registry does not know is renamed all the same. *)
Lemma prepare_names_node_witness :
  fst (prepare (env := env false) state 0%nat (fresh "nope" NATIVE false Int32)
         add_children) <> OK
  /\ _expr_name (node_after (prepare (env := env false) state 0%nat
                               (fresh "nope" NATIVE false Int32) add_children))
     = "VectorizedFnCall[nope](arguments=a, b,return=INT)".
Proof.
  split; [discriminate |].
  exact (prepare_names_node (env := env false) state 0%nat 0%nat
           (fresh "nope" NATIVE false Int32) add_children add_children
           eq_refl eq_refl).
Defined.

(** The fast path answers with index 0 and the block as it was. *)
Lemma execute_fast_path_witness :
  _do_execute (env := faulty_env true true true true) add_node add_children
    (start two_columns) (-1)%Z [9%Z]
  = Some (OK, start two_columns, 0%Z, [9%Z]).
Proof.
  exact (proj1 (execute_fast_path (env := faulty_env true true true true)
                  add_node add_children (start two_columns) (-1)%Z [9%Z]
                  eq_refl eq_refl)).
Defined.

(** A remote call between the two slots: the demo function cannot run it,
    the second slot is never reached and the block of two columns only gains
    the column the failing child appended for itself. *)
Lemma execute_stops_at_failing_child_witness :
  exists s3,
    _do_execute (env := env false) add_node
      [slot 0 "a"; FnCall rpc_node []; slot 1 "b"] (start two_columns) (-1)%Z []
    = Some (Error (OTHER_ERROR 1) "not executable", s3, (-1)%Z, [0; 0; 0]%Z)
    /\ List.length (st_block s3) = 3%nat
    /\ ~ In (ChildExecute (slot 1 "b")) (st_calls s3).
Proof.
  eexists. split.
  - eapply (execute_stops_at_failing_child (env := env false) add_node
              [slot 0 "a"] [slot 1 "b"] (FnCall rpc_node [])); reflexivity.
  - split; [reflexivity |].
    cbn. intros [H | [H | [H | H]]]; try discriminate; exact H.
Defined.

(** The check of the constness fails: two columns as before. *)
Lemma execute_check_constant_fails_witness :
  exists s2,
    _do_execute (env := faulty_env false false true true) add_node add_children
      (start two_columns) (-1)%Z []
    = Some (Error INTERNAL_ERROR "unexpected constant column", s2, (-1)%Z, [0; 1]%Z)
    /\ st_block s2 = two_columns.
Proof.
  eexists. split.
  - eapply (execute_check_constant_fails (env := faulty_env false false true true));
      reflexivity.
  - reflexivity.
Defined.

(** The bound function fails: its status comes back and the index is still
    the -1 the caller put there. *)
Lemma execute_function_fails_witness :
  exists s4,
    _do_execute (env := faulty_env false true false true) add_node add_children
      (start two_columns) (-1)%Z []
    = Some (Error (OTHER_ERROR 7) "backend failed", s4, (-1)%Z, [0; 1]%Z)
    /\ List.length (st_block s4) = 3%nat.
Proof.
  eexists. split.
  - eapply (execute_function_fails (env := faulty_env false true false true));
      reflexivity.
  - reflexivity.
Defined.

(** The check of the block fails after the addition: the index 2 is written. *)
Lemma execute_type_check_fails_witness :
  exists s4,
    _do_execute (env := faulty_env false true true false) add_node add_children
      (start two_columns) (-1)%Z []
    = Some (Error INTERNAL_ERROR "column type mismatch", s4, 2%Z, [0; 1]%Z)
    /\ map column (st_block s4)
       = [Some [1; 2; 3]%Z; Some [10; 20; 30]%Z; Some [11; 22; 33]%Z].
Proof.
  eexists. split.
  - eapply (execute_type_check_fails (env := faulty_env false true true false)
              add_node add_children (start two_columns) after_slots);
      reflexivity.
  - reflexivity.
Defined.

(** A buffer of five stale entries comes back with the two indices. *)
Lemma execute_fills_buffer_witness :
  execute_runtime_filter (env := env false) add_node add_children
    (start two_columns) (-1)%Z [9; 9; 9; 9; 9]%Z
  = Some (OK, add_result, 2%Z, [0; 1]%Z)
  /\ List.length [0; 1]%Z = List.length add_children.
Proof.
  assert (Hexec : execute_runtime_filter (env := env false) add_node add_children
                    (start two_columns) (-1)%Z [9; 9; 9; 9; 9]%Z
                  = Some (OK, add_result, 2%Z, [0; 1]%Z)) by reflexivity.
  split; [exact Hexec |].
  exact (proj1 (execute_fills_buffer (env := env false) add_node add_children
                  (start two_columns) add_result (-1)%Z 2%Z _ _
                  eq_refl eq_refl Hexec)).
Defined.

(** The debug point asks for the columns x and y; the first child reads a. *)
Lemma execute_must_in_slow_path_witness :
  _do_execute (env := debug_env "x,y") add_node add_children
    (start two_columns) (-1)%Z []
  = Some (Error INTERNAL_ERROR
            "column a should in slow path while VectorizedFnCall::execute.",
          start two_columns, (-1)%Z, []).
Proof.
  refine (proj2 (execute_must_in_slow_path (env := debug_env "x,y") add_node
                   (slot 0 "a") [slot 1 "b"] (start two_columns) (-1)%Z []
                   eq_refl eq_refl eq_refl eq_refl) _).
  cbn. intros [H | [H | H]]; try discriminate; exact H.
Defined.

(** The nested addition costs the four bytes of its root a row. *)
Lemma estimate_memory_linear_witness :
  estimate_memory nested 10 = 40%N.
Proof.
  rewrite (estimate_memory_linear nested 10).
  - reflexivity.
  - cbn. repeat split.
Defined.

(** Opening a constant node over the addition in the fragment-local scope. *)
Lemma open_marks_every_call_node_witness :
  exists e',
    open state FRAGMENT_LOCAL (FnCall pending_const [FnCall add_node add_children]) 0%nat
    = (OK, (e', 0%nat))
    /\ all_opened e'.
Proof.
  eexists. split; [reflexivity |].
  eapply (open_marks_every_call_node state FRAGMENT_LOCAL
            (FnCall pending_const [FnCall add_node add_children]) _ 0%nat 0%nat).
  reflexivity.
Defined.

(** A slot with a negative column id between two good ones. *)
Lemma open_stops_at_failing_child_witness :
  open state THREAD_LOCAL (FnCall add_node [slot 0 "a"; slot (-1) "bad"; FnCall add_node []])
    0%nat
  = (Error (OTHER_ERROR 2) "no such slot",
     (FnCall add_node [slot 0 "a"; slot (-1) "bad"; FnCall add_node []], 0%nat)).
Proof.
  apply (open_stops_at_failing_child state THREAD_LOCAL add_node
           [slot 0 "a"] [slot 0 "a"] [FnCall add_node []]
           (slot (-1) "bad") (slot (-1) "bad") 0%nat 0%nat 0%nat);
    reflexivity.
Defined.
